(** * Neurometeo: the signal-processing script of [main.py]

    A shallow embedding of the Streamlit script [main.py] and the
    properties of its pipeline: min-max normalisation, spike encoding,
    the LIF loop, the moving-average forecast, the summary, the CSV
    export and the e-mail alert.

    Numbers.  The wind samples come out of a JSON document and the script
    only applies [-], [/], [>], [sum], [min] and [max] to them.  They are
    modelled as exact rationals [Q]; equalities between computed numbers
    are stated with [==] (numeric equality), and a division whose divisor
    is numerically zero raises [ZeroDivisionError], as Python's [/] does.
    Rounding of binary floating point is not modelled.

    Effects.  The script is one top-to-bottom run.  A run is modelled as
    the list of things it shows the user (the calls to [st.*] that
    display something) together with the way it ends: to completion, by
    [st.stop()], or by an exception nobody caught. *)

From Stdlib Require Import String QArith ZArith List Bool Lia Lqa.
Import ListNotations.

Local Open Scope Q_scope.

(** ** Exceptions and results *)

(** The exceptions the script can meet; all of them are subclasses of
    Python's [Exception], so [except Exception] catches each one. *)
Inductive exn : Type :=
| ZeroDivisionError
| ValueError (msg : string)
| IndexError
| NameError (name : string)
| KeyError (key : string)
| RequestError (msg : string)
| SMTPError (msg : string).

Inductive result (A : Type) : Type :=
| Ok (a : A)
| Raise (e : exn).

Arguments Ok {A} a.
Arguments Raise {A} e.

Definition rbind {A B} (r : result A) (k : A -> result B) : result B :=
  match r with
  | Ok a => k a
  | Raise e => Raise e
  end.

Declare Scope result_scope.
Delimit Scope result_scope with result.
Notation "x <- r ;; k" := (rbind r (fun x => k))
  (at level 61, r at next level, right associativity) : result_scope.

(** A list comprehension whose body can raise: elements are evaluated
    left to right and the first exception ends the comprehension. *)
Fixpoint comprehension {A B} (body : A -> result B) (xs : list A)
  : result (list B) :=
  match xs with
  | [] => Ok []
  | x :: rest =>
      (y <- body x ;;
       ys <- comprehension body rest ;;
       Ok (y :: ys))%result
  end.

(** ** Python builtins used by the script *)

Definition Qlt_bool (x y : Q) : bool := negb (Qle_bool y x).

(** [a / b] on numbers. *)
Definition truediv (a b : Q) : result Q :=
  if Qeq_bool b 0 then Raise ZeroDivisionError else Ok (a / b).

(** [min(l)]: the first smallest element. *)
Fixpoint min_from (cur : Q) (l : list Q) : Q :=
  match l with
  | [] => cur
  | x :: rest => min_from (if Qlt_bool x cur then x else cur) rest
  end.

Definition py_min (l : list Q) : result Q :=
  match l with
  | [] => Raise (ValueError "min() arg is an empty sequence")
  | x :: rest => Ok (min_from x rest)
  end.

(** [max(l)]: the first largest element. *)
Fixpoint max_from (cur : Q) (l : list Q) : Q :=
  match l with
  | [] => cur
  | x :: rest => max_from (if Qlt_bool cur x then x else cur) rest
  end.

Definition py_max (l : list Q) : result Q :=
  match l with
  | [] => Raise (ValueError "max() arg is an empty sequence")
  | x :: rest => Ok (max_from x rest)
  end.

(** [sum(l)]: starts from 0 and adds from the left. *)
Definition py_sum (l : list Q) : Q := fold_left Qplus l 0.

(** [l[i:j]] for [0 <= i <= j]. *)
Definition slice {A} (l : list A) (i j : nat) : list A :=
  firstn (j - i) (skipn i l).

(** [l[k]], with Python's negative indices. *)
Definition getitem {A} (l : list A) (k : Z) : result A :=
  let n := Z.of_nat (length l) in
  let k' := (if k <? 0 then k + n else k)%Z in
  if ((k' <? 0) || (n <=? k'))%Z then Raise IndexError
  else match nth_error l (Z.to_nat k') with
       | Some a => Ok a
       | None => Raise IndexError
       end.

(** ** Signal normaliser and spike encoder (lines 34 and 36) *)

(** [[(w - min(wind)) / (max(wind) - min(wind)) for w in wind]];
    [min] and [max] are evaluated again for every element, left operand
    first. *)
Definition normalize (wind : list Q) : result (list Q) :=
  comprehension
    (fun w =>
       (lo <- py_min wind ;;
        hi <- py_max wind ;;
        lo' <- py_min wind ;;
        truediv (w - lo) (hi - lo'))%result)
    wind.

(** [[1 if w > threshold else 0 for w in wind_norm]] *)
Definition encode (threshold : Q) (wind_norm : list Q) : list Z :=
  map (fun w => if Qlt_bool threshold w then 1%Z else 0%Z) wind_norm.

(** ** The LIF neuron (lines 42 to 49) *)

(** The part of the [norse] library the script touches.  The library is
    not part of the repository: its [lif_step] is a parameter of the
    model, a function of its arguments, so nothing here says whether two
    calls of the library agree.  Tensors of one element are modelled by
    their element. *)
Module Norse.

Record LIFState : Type := mkLIFState { z : Q; v : Q; i : Q }.

Record LIFParameters : Type := mkLIFParameters { alpha : Q }.

(** [lif_step(input, state, input_weights, recurrent_weights, p)]
    returns the output [z] and the next state. *)
Definition step : Type :=
  Q -> LIFState -> Q -> Q -> LIFParameters -> Q * LIFState.

(** A stand-in for the library's function, to run the model on concrete
    inputs: one forward-Euler LIF step (leak of potential and current by
    a fixed fraction, a spike and a reset when the potential exceeds 1,
    then the input and the recurrent spike added to the current), with
    fractions kept in lowest terms.  Its numbers are not the library's.
    The theorems hold for every [step]; none assumes this one and none
    states a value it computes. *)
Definition euler_step : step :=
  fun inp s w_in w_rec _ =>
    let v_decayed := v s + (1 # 10) * (i s - v s) in
    let i_decayed := i s - (1 # 5) * i s in
    let z_new := if Qlt_bool 1 v_decayed then 1 else 0 in
    let v_new := (1 - z_new) * v_decayed in
    let i_new := i_decayed + w_in * inp + w_rec * z s in
    (z_new, mkLIFState z_new (Qred v_new) (Qred i_new)).

End Norse.

(** [LIFState(z=torch.zeros(1), v=torch.zeros(1), i=torch.zeros(1))] *)
Definition state0 : Norse.LIFState := Norse.mkLIFState 0 0 0.

(** [torch.eye(1)] *)
Definition w_in : Q := 1.
Definition w_rec : Q := 1.

(** [LIFParameters(alpha=100.0)] *)
Definition p100 : Norse.LIFParameters := Norse.mkLIFParameters 100.

(** The [for spike in spikes] loop, as a function: the state and the
    list of outputs are threaded through the iterations. *)
Fixpoint lif_loop (lif_step : Norse.step) (p : Norse.LIFParameters)
    (state : Norse.LIFState) (outputs : list Q) (spikes : list Z)
  : list Q * Norse.LIFState :=
  match spikes with
  | [] => (outputs, state)
  | spike :: rest =>
      let inp := inject_Z spike in
      let '(z, state') := lif_step inp state w_in w_rec p in
      lif_loop lif_step p state' (outputs ++ [z]) rest
  end.

Definition simulate (lif_step : Norse.step) (p : Norse.LIFParameters)
    (spikes : list Z) : list Q :=
  fst (lif_loop lif_step p state0 [] spikes).

(** ** Forecaster (lines 52 to 54) *)

(** [sum(wind[i:i+pred_window]) / pred_window] *)
Definition window_mean (wind : list Q) (pred_window i : nat) : result Q :=
  truediv (py_sum (slice wind i (i + pred_window)))
          (inject_Z (Z.of_nat pred_window)).

(** [range(len(wind) - pred_window + 1)]: empty when the bound is not
    positive, which is what the truncated subtraction of [nat] gives. *)
Definition forecast_range (wind : list Q) (pred_window : nat) : list nat :=
  seq 0 (length wind + 1 - pred_window).

(** Lines 53 and 54: the means, then [None] up to 24 entries
    ([[None] * k] is empty for a negative [k]). *)
Definition forecast (wind : list Q) (pred_window : nat)
  : result (list (option Q)) :=
  (preds <- comprehension (window_mean wind pred_window)
                          (forecast_range wind pred_window) ;;
   Ok (map Some preds ++ repeat None (24 - length preds)))%result.

(** An entry of the forecast that holds a number, not [None]. *)
Definition has_value (entry : option Q) : bool :=
  match entry with
  | Some _ => true
  | None => false
  end.

(** The arithmetic mean of a list, as the specification uses the word. *)
Definition mean (l : list Q) : Q :=
  py_sum l / inject_Z (Z.of_nat (length l)).

(** The forecast of 24 samples for a window in [1,5], written out. *)
Definition forecast_24 (wind : list Q) (w : nat) : list (option Q) :=
  map Some (map (fun k => mean (slice wind k (k + w))) (seq 0 (25 - w)))
  ++ repeat None (w - 1).

(** ** Alert condition (line 99) *)

(** [alerte_active and max(wind) > 30]: [max] is not evaluated when the
    box is not ticked. *)
Definition alert_condition (alerte_active : bool) (wind : list Q)
  : result bool :=
  if alerte_active
  then (m <- py_max wind ;; Ok (Qlt_bool 30 m))%result
  else Ok false.

(** ** What a run shows, and how it ends *)

Record chart : Type := mkChart {
  chart_wind : list Q;
  chart_wind_norm : list Q;
  chart_spikes : list Z;
  chart_outputs : list Q;
  chart_preds : list (option Q);
  chart_threshold : Q
}.

(** A row of the exported table: Heure, Vent, Vent normalise, Spike,
    Sortie neurone, Vent predit. *)
Record csv_row : Type := mkRow {
  heure : Z;
  vent : Q;
  vent_normalise : Q;
  spike_col : Z;
  sortie_neurone : Q;
  vent_predit : option Q
}.

Inductive summary_line : Type :=
| SpikesDetected (n : Z)
| MaxOutput (x : Q)
| MaxWind (x : Q)
| PredictedNextHour (x : Q).

(** The calls that put something on the page: [st.title] and
    [st.markdown] ([StText]), a widget ([StWidget], named after the
    variable it sets), [st.error] with the text before the exception,
    [st.pyplot], the [st.write] lines of the summary, [st.warning],
    [st.download_button] and [st.success].  Texts are given without
    their emoji and accents. *)
Inductive event : Type :=
| StText (text : string)
| StWidget (name : string)
| StError (context : string) (e : exn)
| StPyplot (c : chart)
| StWrite (line : summary_line)
| StWarning (text : string)
| StDownloadButton (csv : list csv_row)
| StSuccess (text : string).

(** A piece ends by handing on a value, by [st.stop()], or by an
    exception that reaches Streamlit. *)
Inductive ending (A : Type) : Type :=
| Returned (a : A)
| Stopped
| Uncaught (e : exn).

Arguments Returned {A} a.
Arguments Stopped {A}.
Arguments Uncaught {A} e.

(** A piece of the script: what it shows, then how it ends. *)
Definition script (A : Type) : Type := (list event * ending A)%type.

Definition ret {A} (a : A) : script A := ([], Returned a).

Definition bind {A B} (m : script A) (k : A -> script B) : script B :=
  match m with
  | (shown, Returned a) => let (shown', r) := k a in (shown ++ shown', r)
  | (shown, Stopped) => (shown, Stopped)
  | (shown, Uncaught e) => (shown, Uncaught e)
  end.

Declare Scope script_scope.
Delimit Scope script_scope with script.
Notation "x <- m ;; k" := (bind m (fun x => k))
  (at level 61, m at next level, right associativity) : script_scope.
Notation "m ;; k" := (bind m (fun _ => k))
  (at level 61, right associativity) : script_scope.

Definition show (e : event) : script unit := ([e], Returned tt).

(** A widget call: the widget is drawn and the user's value returned. *)
Definition widget {A} (name : string) (value : A) : script A :=
  ([StWidget name], Returned value).

Definition st_stop {A} : script A := ([], Stopped).

Definition lift {A} (r : result A) : script A :=
  match r with
  | Ok a => ret a
  | Raise e => ([], Uncaught e)
  end.

(** [try: body / except Exception as e: handler]. *)
Definition try_except {A} (body : script A) (handler : exn -> script A)
  : script A :=
  match body with
  | (shown, Uncaught e) =>
      let (shown', r) := handler e in (shown ++ shown', r)
  | _ => body
  end.

Definition shown {A} (m : script A) : list event := fst m.
Definition ended {A} (m : script A) : ending A := snd m.

(** ** The script's own tables *)

Inductive ville : Type :=
| Abidjan | Korhogo | Yamoussoukro | Bouake | SanPedro.

(** The dictionary [villes]. *)
Definition villes (nom : ville) : Q * Q :=
  match nom with
  | Abidjan => (5.34, -4.03)
  | Korhogo => (9.46, -5.63)
  | Yamoussoukro => (6.82, -5.28)
  | Bouake => (7.69, -5.03)
  | SanPedro => (4.75, -6.65)
  end.

(** The names bound at module level when the alert block runs: the
    imports of lines 6 to 12 and the variables assigned above line 97. *)
Definition module_globals : list string :=
  [ "st"; "requests"; "torch"; "plt"; "pd"; "StringIO";
    "lif_step"; "LIFState"; "LIFParameters";
    "villes"; "ville_nom"; "lat"; "lon"; "url"; "data"; "wind";
    "wind_norm"; "threshold"; "spikes"; "state"; "w_in"; "w_rec";
    "outputs"; "spike"; "inp"; "z"; "pred_window"; "preds"; "fig"; "ax";
    "val"; "df"; "csv"; "alerte_active"; "sender"; "password";
    "receiver" ]%string.

(** The builtins the script calls. *)
Definition builtins : list string :=
  [ "list"; "min"; "max"; "sum"; "len"; "range"; "float"; "int";
    "isinstance"; "Exception" ]%string.

(** Reading a global name: the module's names, then the builtins, else
    [NameError]. *)
Definition load_global (globals : list string) (name : string)
  : result unit :=
  if existsb (String.eqb name) (globals ++ builtins)
  then Ok tt
  else Raise (NameError name).

(** ** Collaborators *)

(** What the e-mail libraries would answer if they were called: building
    the message, opening the SSL connection, logging in, sending. *)
Record notification : Type := mkNotification {
  build_message : result unit;
  connect : result unit;
  login : result unit;
  send_message : result unit
}.

(** What the user set on the page. *)
Record widgets : Type := mkWidgets {
  ville_nom : ville;
  threshold : Q;
  pred_window : nat;
  alerte_active : bool;
  receiver : string;
  envoyer : bool
}.

(** [pd.DataFrame] of a dictionary of lists: the columns must have one
    length. *)
Fixpoint data_frame (c_heure : list Z) (c_vent c_norm : list Q)
    (c_spike : list Z) (c_sortie : list Q) (c_predit : list (option Q))
  : result (list csv_row) :=
  match c_heure, c_vent, c_norm, c_spike, c_sortie, c_predit with
  | [], [], [], [], [], [] => Ok []
  | h :: hs, w :: ws, n :: ns, s :: ss, o :: os, q :: qs =>
      (rows <- data_frame hs ws ns ss os qs ;;
       Ok (mkRow h w n s o q :: rows))%result
  | _, _, _, _, _, _ =>
      Raise (ValueError "All arrays must be of the same length")
  end.

(** ** The script *)

Section Script.

(** The outcome of lines 31 to 33 up to the slice: the request, the
    JSON decoding and [data["hourly"]["wind_speed_10m"]]. *)
Variable forecast_source : Q -> Q -> result (list Q).

(** [norse.torch.functional.lif.lif_step]. *)
Variable lif_step : Norse.step.

Local Open Scope script_scope.

(** Lines 30 to 39. *)
Definition fetch_block (ui : widgets) (lat lon : Q)
  : script (list Q * list Q * Q * list Z) :=
  try_except
    (hourly <- lift (forecast_source lat lon) ;;
     let wind := firstn 24 hourly in
     wind_norm <- lift (normalize wind) ;;
     threshold <- widget "threshold" (threshold ui) ;;
     let spikes := encode threshold wind_norm in
     ret (wind, wind_norm, threshold, spikes))
    (fun e =>
       show (StError "Erreur recuperation meteo" e) ;;
       st_stop).

(** Line 77: [preds[len(spikes)-1] if preds and len(preds) >=
    len(spikes) else None]. *)
Definition next_hour (spikes : list Z) (preds : list (option Q))
  : result (option Q) :=
  if negb (Nat.eqb (length preds) 0) && (length spikes <=? length preds)%nat
  then getitem preds (Z.of_nat (length spikes) - 1)
  else Ok None.

(** Lines 72 to 82. *)
Definition summary (wind : list Q) (spikes : list Z) (outputs : list Q)
    (preds : list (option Q)) : script unit :=
  show (StText "Analyse") ;;
  show (StWrite (SpikesDetected (fold_left Z.add spikes 0%Z))) ;;
  max_out <- lift (py_max outputs) ;;
  show (StWrite (MaxOutput max_out)) ;;
  max_wind <- lift (py_max wind) ;;
  show (StWrite (MaxWind max_wind)) ;;
  val <- lift (next_hour spikes preds) ;;
  match val with
  | Some x => show (StWrite (PredictedNextHour x))
  | None => show (StWarning "Prevision indisponible ou non valide.")
  end.

(** Lines 15 to 96: everything but the alert.  It returns [wind], the
    one value the alert block reads. *)
Definition pipeline (ui : widgets) : script (list Q) :=
  show (StText "Simulation Neuromorphique des Vents") ;;
  ville_nom <- widget "ville" (ville_nom ui) ;;
  let '(lat, lon) := villes ville_nom in
  fetched <- fetch_block ui lat lon ;;
  let '(wind, wind_norm, threshold, spikes) := fetched in
  let outputs := simulate lif_step p100 spikes in
  pred_window <- widget "pred_window" (pred_window ui) ;;
  preds <- lift (forecast wind pred_window) ;;
  show (StPyplot (mkChart wind wind_norm spikes outputs preds threshold)) ;;
  summary wind spikes outputs preds ;;
  df <- lift (data_frame (map Z.of_nat (seq 0 24))
                         wind wind_norm spikes outputs preds) ;;
  show (StDownloadButton df) ;;
  ret wind.

(** Lines 100 to 117, for a module whose global names are [globals]
    and e-mail libraries that answer as [mail]. *)
Definition alert_try (globals : list string) (mail : notification)
    (ui : widgets) : script unit :=
  try_except
    (_ <- widget "receiver" (receiver ui) ;;
     pressed <- widget "envoyer" (envoyer ui) ;;
     if (pressed : bool) then
       lift (load_global globals "MIMEText") ;;
       lift (build_message mail) ;;
       lift (load_global globals "smtplib") ;;
       lift (connect mail) ;;
       lift (login mail) ;;
       lift (send_message mail) ;;
       show (StSuccess "Alerte envoyee avec succes.")
     else ret tt)
    (fun e => show (StError "Erreur lors de l'envoi" e)).

(** Lines 98 to 117. *)
Definition alert_block (globals : list string) (mail : notification)
    (ui : widgets) (wind : list Q) : script unit :=
  armed <- widget "alerte_active" (alerte_active ui) ;;
  trigger <- lift (alert_condition armed wind) ;;
  if (trigger : bool) then alert_try globals mail ui else ret tt.

(** The whole script, over any set of global names. *)
Definition run_with (globals : list string) (mail : notification)
    (ui : widgets) : script unit :=
  wind <- pipeline ui ;;
  alert_block globals mail ui wind.

(** [main.py] as it is. *)
Definition main (mail : notification) (ui : widgets) : script unit :=
  run_with module_globals mail ui.

End Script.

(** What the source answers for the city chosen on the page (lines 26,
    27 and 31 to 33). *)
Definition fetched (forecast_source : Q -> Q -> result (list Q))
    (ui : widgets) : result (list Q) :=
  let '(lat, lon) := villes (ville_nom ui) in forecast_source lat lon.

(** ** Concrete collaborators, to run the model *)

Definition source_of (hourly : list Q) : Q -> Q -> result (list Q) :=
  fun _ _ => Ok hourly.

Definition mail_ok : notification :=
  mkNotification (Ok tt) (Ok tt) (Ok tt) (Ok tt).

Definition mail_refused : notification :=
  mkNotification (Ok tt) (Ok tt)
                 (Raise (SMTPError "authentication failed")) (Ok tt).

(** 24 increasing multiples of ten: 10, 20, ..., 240. *)
Definition ramp : list Q :=
  map (fun k => inject_Z (10 * Z.of_nat k)) (seq 1 24).

Definition ui0 : widgets :=
  mkWidgets Abidjan 0.3 3 true "destinataire@example.com" true.

(** Five samples only. *)
Definition five_samples : list Q := [10; 20; 30; 40; 50].

(** The names of a module that would also import [MIMEText] and
    [smtplib]. *)
Definition globals_with_mail : list string :=
  ("MIMEText" :: "smtplib" :: module_globals)%string.

(** A source that cannot be reached. *)
Definition source_down : Q -> Q -> result (list Q) :=
  fun _ _ => Raise (RequestError "connection refused").

(** The page of [ui0] with the button not pressed. *)
Definition ui_not_pressed : widgets :=
  mkWidgets Abidjan 0.3 3 true "destinataire@example.com" false.

(** Three normalised values. *)
Definition three_levels : list Q := [0.2; 0.4; 0.9].

(** * Properties *)

(** ** Comparisons and the builtins *)

Lemma Qlt_bool_iff (x y : Q) : Qlt_bool x y = true <-> x < y.
Proof.
  unfold Qlt_bool. rewrite negb_true_iff, <- not_true_iff_false, Qle_bool_iff.
  split; [apply Qnot_le_lt | apply Qlt_not_le].
Qed.

Lemma Qlt_bool_false_iff (x y : Q) : Qlt_bool x y = false <-> y <= x.
Proof.
  unfold Qlt_bool. rewrite negb_false_iff. apply Qle_bool_iff.
Qed.

Lemma truediv_nonzero (a b : Q) : ~ b == 0 -> truediv a b = Ok (a / b).
Proof.
  intros Hb. unfold truediv.
  destruct (Qeq_bool b 0) eqn:E; [|reflexivity].
  apply Qeq_bool_iff in E. contradiction.
Qed.

Lemma truediv_zero (a b : Q) : b == 0 -> truediv a b = Raise ZeroDivisionError.
Proof.
  intros Hb. unfold truediv. apply Qeq_bool_iff in Hb. now rewrite Hb.
Qed.

Lemma min_from_le_start (l : list Q) : forall cur, min_from cur l <= cur.
Proof.
  induction l as [|x rest IH]; intros cur; simpl.
  - apply Qle_refl.
  - destruct (Qlt_bool x cur) eqn:E.
    + apply Qlt_bool_iff in E.
      apply Qle_trans with x; [apply IH | now apply Qlt_le_weak].
    + apply IH.
Qed.

Lemma min_from_lower_bound (l : list Q) :
  forall cur x, In x l -> min_from cur l <= x.
Proof.
  induction l as [|y rest IH]; intros cur x Hin; simpl in *; [contradiction|].
  destruct Hin as [-> | Hin]; [|now apply IH].
  destruct (Qlt_bool x cur) eqn:E.
  - apply min_from_le_start.
  - apply Qlt_bool_false_iff in E.
    apply Qle_trans with cur; [apply min_from_le_start | exact E].
Qed.

Lemma min_from_member (l : list Q) :
  forall cur, min_from cur l = cur \/ In (min_from cur l) l.
Proof.
  induction l as [|y rest IH]; intros cur; simpl; [now left|].
  destruct (Qlt_bool y cur);
    [destruct (IH y) as [H | H] | destruct (IH cur) as [H | H]]; auto.
Qed.

Lemma max_from_ge_start (l : list Q) : forall cur, cur <= max_from cur l.
Proof.
  induction l as [|x rest IH]; intros cur; simpl.
  - apply Qle_refl.
  - destruct (Qlt_bool cur x) eqn:E.
    + apply Qlt_bool_iff in E.
      apply Qle_trans with x; [now apply Qlt_le_weak | apply IH].
    + apply IH.
Qed.

Lemma max_from_upper_bound (l : list Q) :
  forall cur x, In x l -> x <= max_from cur l.
Proof.
  induction l as [|y rest IH]; intros cur x Hin; simpl in *; [contradiction|].
  destruct Hin as [-> | Hin]; [|now apply IH].
  destruct (Qlt_bool cur x) eqn:E.
  - apply max_from_ge_start.
  - apply Qlt_bool_false_iff in E.
    apply Qle_trans with cur; [exact E | apply max_from_ge_start].
Qed.

Lemma max_from_member (l : list Q) :
  forall cur, max_from cur l = cur \/ In (max_from cur l) l.
Proof.
  induction l as [|y rest IH]; intros cur; simpl; [now left|].
  destruct (Qlt_bool cur y);
    [destruct (IH y) as [H | H] | destruct (IH cur) as [H | H]]; auto.
Qed.

(** [min(l)] is an element of [l] below all the others. *)
Lemma py_min_spec (l : list Q) (lo : Q) :
  py_min l = Ok lo -> In lo l /\ forall x, In x l -> lo <= x.
Proof.
  destruct l as [|a rest]; simpl; [discriminate|].
  intros [= <-]. split.
  - destruct (min_from_member rest a) as [-> | H]; auto.
  - intros x [<- | Hin].
    + apply min_from_le_start.
    + now apply min_from_lower_bound.
Qed.

(** [max(l)] is an element of [l] above all the others. *)
Lemma py_max_spec (l : list Q) (hi : Q) :
  py_max l = Ok hi -> In hi l /\ forall x, In x l -> x <= hi.
Proof.
  destruct l as [|a rest]; simpl; [discriminate|].
  intros [= <-]. split.
  - destruct (max_from_member rest a) as [-> | H]; auto.
  - intros x [<- | Hin].
    + apply max_from_ge_start.
    + now apply max_from_upper_bound.
Qed.

Lemma py_min_nonempty (l : list Q) : l <> [] -> exists lo, py_min l = Ok lo.
Proof. destruct l; [congruence | eexists; reflexivity]. Qed.

Lemma py_max_nonempty (l : list Q) : l <> [] -> exists hi, py_max l = Ok hi.
Proof. destruct l; [congruence | eexists; reflexivity]. Qed.

(** ** Comprehensions *)

Lemma comprehension_total {A B} (body : A -> result B) (f : A -> B)
    (xs : list A) :
  (forall x, In x xs -> body x = Ok (f x)) ->
  comprehension body xs = Ok (map f xs).
Proof.
  induction xs as [|x rest IH]; intros H; simpl; [reflexivity|].
  rewrite (H x (or_introl eq_refl)). simpl.
  rewrite IH; [reflexivity|]. intros y Hy. apply H. now right.
Qed.

Lemma comprehension_raises {A B} (body : A -> result B) (e : exn)
    (xs : list A) :
  xs <> [] -> (forall x, In x xs -> body x = Raise e) ->
  comprehension body xs = Raise e.
Proof.
  destruct xs as [|x rest]; [congruence|]. intros _ H. simpl.
  now rewrite (H x (or_introl eq_refl)).
Qed.

Lemma comprehension_length {A B} (body : A -> result B) (xs : list A) :
  forall ys, comprehension body xs = Ok ys -> length ys = length xs.
Proof.
  induction xs as [|x rest IH]; simpl; intros ys.
  - now intros [= <-].
  - destruct (body x); simpl; [|discriminate].
    destruct (comprehension body rest) eqn:E; simpl; [|discriminate].
    intros [= <-]. simpl. f_equal. now apply IH.
Qed.

(** ** Normaliser *)

(** On a series that is not constant the comprehension of line 34 is a
    plain [map]. *)
Lemma normalize_map (wind : list Q) (lo hi : Q) :
  py_min wind = Ok lo -> py_max wind = Ok hi -> ~ hi == lo ->
  normalize wind = Ok (map (fun w => (w - lo) / (hi - lo)) wind).
Proof.
  intros Hlo Hhi Hne. unfold normalize.
  apply comprehension_total. intros w _.
  rewrite Hlo, Hhi. simpl. apply truediv_nonzero.
  intros H0. apply Hne. lra.
Qed.

(** On a constant series every element divides by zero. *)
Lemma normalize_constant (wind : list Q) (c : Q) :
  wind <> [] -> Forall (fun w => w == c) wind ->
  normalize wind = Raise ZeroDivisionError.
Proof.
  intros Hne Hall.
  destruct (py_min_nonempty wind Hne) as [lo Hlo].
  destruct (py_max_nonempty wind Hne) as [hi Hhi].
  destruct (py_min_spec wind lo Hlo) as [Hlo_in _].
  destruct (py_max_spec wind hi Hhi) as [Hhi_in _].
  rewrite Forall_forall in Hall.
  pose proof (Hall lo Hlo_in) as Elo. pose proof (Hall hi Hhi_in) as Ehi.
  unfold normalize. apply comprehension_raises; [exact Hne|].
  intros w _. rewrite Hlo, Hhi. simpl. apply truediv_zero.
  rewrite Elo, Ehi. ring.
Qed.

Lemma normalized_in_unit_interval (w lo hi : Q) :
  lo <= w -> w <= hi -> ~ hi == lo ->
  0 <= (w - lo) / (hi - lo) <= 1.
Proof.
  intros Hlo Hhi Hne.
  assert (Hpos : 0 < hi - lo).
  { destruct (Qlt_le_dec lo hi) as [Hlt | Hge]; [lra|].
    exfalso. apply Hne. apply Qle_antisym; [exact Hge|].
    apply Qle_trans with w; assumption. }
  split.
  - apply Qle_shift_div_l; [exact Hpos | lra].
  - apply Qle_shift_div_r; [exact Hpos | lra].
Qed.

(** C1.  For a series of 24 samples whose maximum differs from its
    minimum, line 34 yields 24 values with
    [normalized[k] = (wind[k] - min) / (max - min)]; each of them lies in
    [0,1], a sample equal to the maximum maps to 1 and a sample equal to
    the minimum maps to 0. *)
Theorem normalize_min_max (wind : list Q) (lo hi : Q) :
  length wind = 24%nat ->
  py_min wind = Ok lo ->
  py_max wind = Ok hi ->
  ~ hi == lo ->
  exists wind_norm,
    normalize wind = Ok wind_norm /\
    length wind_norm = 24%nat /\
    forall k, (k < 24)%nat ->
      nth k wind_norm 0 == (nth k wind 0 - lo) / (hi - lo) /\
      0 <= nth k wind_norm 0 <= 1 /\
      (nth k wind 0 == hi -> nth k wind_norm 0 == 1) /\
      (nth k wind 0 == lo -> nth k wind_norm 0 == 0).
Proof.
  intros Hlen Hlo Hhi Hne.
  exists (map (fun w => (w - lo) / (hi - lo)) wind).
  split; [now apply normalize_map|].
  split; [now rewrite length_map|].
  intros k Hk.
  assert (Hin : In (nth k wind 0) wind) by (apply nth_In; lia).
  destruct (py_min_spec wind lo Hlo) as [_ Hlower].
  destruct (py_max_spec wind hi Hhi) as [_ Hupper].
  set (f := fun w => (w - lo) / (hi - lo)).
  assert (Hnth : nth k (map f wind) 0 = f (nth k wind 0)).
  { rewrite (nth_indep (map f wind) 0 (f 0)) by (rewrite length_map; lia).
    apply map_nth. }
  rewrite Hnth. unfold f.
  assert (Hd : ~ hi - lo == 0) by (intros H0; apply Hne; lra).
  split; [reflexivity|].
  split; [apply normalized_in_unit_interval; auto|].
  split; intros E; rewrite E; field; exact Hd.
Qed.

Lemma normalize_min_max_witness :
  exists wind_norm,
    normalize ramp = Ok wind_norm /\
    length wind_norm = 24%nat /\
    forall k, (k < 24)%nat ->
      nth k wind_norm 0 == (nth k ramp 0 - 10) / (240 - 10) /\
      0 <= nth k wind_norm 0 <= 1 /\
      (nth k ramp 0 == 240 -> nth k wind_norm 0 == 1) /\
      (nth k ramp 0 == 10 -> nth k wind_norm 0 == 0).
Proof.
  apply (normalize_min_max ramp 10 240).
  - reflexivity.
  - reflexivity.
  - reflexivity.
  - intros H. discriminate H.
Defined.

(** ** Spike encoder *)

Lemma encode_length (T : Q) (wind_norm : list Q) :
  length (encode T wind_norm) = length wind_norm.
Proof. unfold encode. apply length_map. Qed.

Lemma encode_nth (T : Q) (wind_norm : list Q) (k : nat) :
  (k < length wind_norm)%nat ->
  nth k (encode T wind_norm) 0%Z =
  if Qlt_bool T (nth k wind_norm 0) then 1%Z else 0%Z.
Proof.
  intros Hk. unfold encode.
  set (f := fun w : Q => if Qlt_bool T w then 1%Z else 0%Z).
  rewrite (nth_indep (map f wind_norm) 0%Z (f 0)) by (rewrite length_map; lia).
  apply map_nth.
Qed.

(** C2.  For a threshold [T] in [0.1, 1.0], line 36 sets [spike[k]] to 1
    exactly when [normalized[k] > T], and to 0 otherwise; a value equal
    to [T] gives 0. *)
Theorem encode_strict (wind_norm : list Q) (T : Q) (k : nat) :
  0.1 <= T <= 1 ->
  (k < length wind_norm)%nat ->
  (nth k (encode T wind_norm) 0%Z = 1%Z <-> T < nth k wind_norm 0) /\
  (nth k (encode T wind_norm) 0%Z = 0%Z <-> nth k wind_norm 0 <= T) /\
  (nth k wind_norm 0 == T -> nth k (encode T wind_norm) 0%Z = 0%Z).
Proof.
  intros _ Hk. rewrite (encode_nth T wind_norm k Hk).
  destruct (Qlt_bool T (nth k wind_norm 0)) eqn:E.
  - apply Qlt_bool_iff in E.
    repeat split; intros; try easy; exfalso; lra.
  - apply Qlt_bool_false_iff in E.
    repeat split; intros; try easy; exfalso; lra.
Qed.

Lemma encode_strict_witness :
  (nth 1 (encode 0.3 [0.2; 0.3; 0.4]) 0%Z = 1%Z <->
     0.3 < nth 1 [0.2; 0.3; 0.4] 0) /\
  (nth 1 (encode 0.3 [0.2; 0.3; 0.4]) 0%Z = 0%Z <->
     nth 1 [0.2; 0.3; 0.4] 0 <= 0.3) /\
  (nth 1 [0.2; 0.3; 0.4] 0 == 0.3 ->
     nth 1 (encode 0.3 [0.2; 0.3; 0.4]) 0%Z = 0%Z).
Proof.
  apply (encode_strict [0.2; 0.3; 0.4] 0.3 1%nat).
  - split; unfold Qle; simpl; lia.
  - simpl; lia.
Defined.

(** ** Forecaster *)

Lemma slice_length {A} (l : list A) (k w : nat) :
  (k + w <= length l)%nat -> length (slice l k (k + w)) = w.
Proof.
  intros H. unfold slice.
  rewrite length_firstn, length_skipn. lia.
Qed.

Lemma slice_one (l : list Q) (k : nat) :
  (k < length l)%nat -> slice l k (k + 1) = [nth k l 0].
Proof.
  revert k. induction l as [|a rest IH]; intros k Hk; simpl in Hk; [lia|].
  destruct k as [|k].
  - reflexivity.
  - unfold slice in *. simpl.
    replace (S (k + 1) - S k)%nat with (k + 1 - k)%nat by lia.
    apply IH. lia.
Qed.

Lemma window_mean_is_mean (wind : list Q) (w k : nat) :
  (1 <= w)%nat -> (k + w <= length wind)%nat ->
  window_mean wind w k = Ok (mean (slice wind k (k + w))).
Proof.
  intros Hw Hk. unfold window_mean, mean.
  rewrite (slice_length wind k w Hk).
  apply truediv_nonzero.
  unfold Qeq, inject_Z. cbn [Qnum Qden]. lia.
Qed.

Lemma seq_nth_error (n k : nat) :
  (k < n)%nat -> nth_error (seq 0 n) k = Some k.
Proof.
  intros Hk.
  rewrite (nth_error_nth' (seq 0 n) 0%nat) by (rewrite length_seq; lia).
  now rewrite seq_nth.
Qed.

Lemma filter_has_value_some (xs : list Q) :
  filter has_value (map Some xs) = map Some xs.
Proof. induction xs as [|x rest IH]; simpl; [|rewrite IH]; reflexivity. Qed.

Lemma filter_has_value_none (n : nat) :
  filter has_value (repeat None n) = [].
Proof. induction n; simpl; auto. Qed.

(** Line 53 and 54 on a series of [n] samples, with [1 <= w <= n + 1]:
    [n + 1 - w] means, then [None]. *)
Lemma forecast_shape (wind : list Q) (w : nat) :
  (1 <= w <= length wind + 1)%nat ->
  forecast wind w =
  Ok (map Some (map (fun k => mean (slice wind k (k + w)))
                    (seq 0 (length wind + 1 - w)))
      ++ repeat None (24 - (length wind + 1 - w))).
Proof.
  intros Hw. unfold forecast, forecast_range.
  rewrite (comprehension_total _ (fun k => mean (slice wind k (k + w)))).
  - simpl. now rewrite length_map, length_seq.
  - intros k Hk. apply in_seq in Hk.
    apply window_mean_is_mean; lia.
Qed.

Lemma forecast_is_forecast_24 (wind : list Q) (w : nat) :
  length wind = 24%nat -> (1 <= w <= 5)%nat ->
  forecast wind w = Ok (forecast_24 wind w).
Proof.
  intros Hlen Hw. rewrite forecast_shape by lia. rewrite Hlen.
  replace (24 + 1 - w)%nat with (25 - w)%nat by lia.
  replace (24 - (25 - w))%nat with (w - 1)%nat by lia.
  reflexivity.
Qed.

Lemma forecast_24_length (wind : list Q) (w : nat) :
  (1 <= w <= 5)%nat -> length (forecast_24 wind w) = 24%nat.
Proof.
  intros Hw. unfold forecast_24.
  rewrite length_app, !length_map, length_seq, repeat_length. lia.
Qed.

Lemma forecast_24_value (wind : list Q) (w k : nat) :
  (1 <= w <= 5)%nat -> (k <= 24 - w)%nat ->
  nth_error (forecast_24 wind w) k = Some (Some (mean (slice wind k (k + w)))).
Proof.
  intros Hw Hk. unfold forecast_24.
  rewrite nth_error_app1 by (rewrite !length_map, length_seq; lia).
  apply map_nth_error.
  apply (map_nth_error (fun k => mean (slice wind k (k + w)))).
  apply seq_nth_error. lia.
Qed.

Lemma forecast_24_padding (wind : list Q) (w k : nat) :
  (1 <= w <= 5)%nat -> (24 - w < k < 24)%nat ->
  nth_error (forecast_24 wind w) k = Some None.
Proof.
  intros Hw Hk. unfold forecast_24.
  rewrite nth_error_app2 by (rewrite !length_map, length_seq; lia).
  apply nth_error_repeat. rewrite !length_map, length_seq. lia.
Qed.

Lemma mean_of_one (wind : list Q) (k : nat) :
  (k < length wind)%nat -> mean (slice wind k (k + 1)) == nth k wind 0.
Proof.
  intros Hk. rewrite slice_one by exact Hk.
  unfold mean, py_sum. simpl. field.
Qed.

(** C3.  For 24 samples and a window [w] in [1,5] the forecast has 24
    entries, of which [24 - w + 1] hold a value; entry [k] for
    [k <= 24 - w] is the mean of [wind[k .. k+w-1]], every later entry is
    [None]; and for [w = 1] entry [k] is numerically [wind[k]]. *)
Theorem forecast_contract (wind : list Q) (w : nat) :
  length wind = 24%nat ->
  (1 <= w <= 5)%nat ->
  exists preds,
    forecast wind w = Ok preds /\
    length preds = 24%nat /\
    length (filter has_value preds) = (24 - w + 1)%nat /\
    (forall k, (k <= 24 - w)%nat ->
       nth_error preds k = Some (Some (mean (slice wind k (k + w))))) /\
    (forall k, (24 - w < k < 24)%nat -> nth_error preds k = Some None) /\
    (w = 1%nat -> forall k, (k < 24)%nat ->
       exists x, nth_error preds k = Some (Some x) /\ x == nth k wind 0).
Proof.
  intros Hlen Hw. exists (forecast_24 wind w).
  split; [now apply forecast_is_forecast_24|].
  split; [now apply forecast_24_length|].
  split.
  { unfold forecast_24.
    rewrite filter_app, filter_has_value_some, filter_has_value_none.
    rewrite app_nil_r, !length_map, length_seq. lia. }
  split; [intros k Hk; now apply forecast_24_value|].
  split; [intros k Hk; now apply forecast_24_padding|].
  intros -> k Hk. eexists. split.
  - apply forecast_24_value; lia.
  - apply mean_of_one. lia.
Qed.

Lemma forecast_contract_witness :
  exists preds,
    forecast ramp 3 = Ok preds /\
    length preds = 24%nat /\
    length (filter has_value preds) = (24 - 3 + 1)%nat /\
    (forall k, (k <= 24 - 3)%nat ->
       nth_error preds k = Some (Some (mean (slice ramp k (k + 3))))) /\
    (forall k, (24 - 3 < k < 24)%nat -> nth_error preds k = Some None) /\
    (3%nat = 1%nat -> forall k, (k < 24)%nat ->
       exists x, nth_error preds k = Some (Some x) /\ x == nth k ramp 0).
Proof.
  apply (forecast_contract ramp 3).
  - reflexivity.
  - lia.
Defined.

(** ** The LIF loop *)

Section Loop.

Variable lif_step : Norse.step.
Variable p : Norse.LIFParameters.

Lemma lif_loop_app (xs ys : list Z) :
  forall state outputs,
    lif_loop lif_step p state outputs (xs ++ ys) =
    lif_loop lif_step p
      (snd (lif_loop lif_step p state outputs xs))
      (fst (lif_loop lif_step p state outputs xs)) ys.
Proof.
  induction xs as [|x rest IH]; intros state outputs; simpl; [reflexivity|].
  destruct (lif_step (inject_Z x) state w_in w_rec p) as [z state'].
  apply IH.
Qed.

(** The loop only appends: what was output stays, one value is added
    per spike. *)
Lemma lif_loop_appends (spikes : list Z) :
  forall state outputs,
    exists added,
      fst (lif_loop lif_step p state outputs spikes) = outputs ++ added /\
      length added = length spikes.
Proof.
  induction spikes as [|spike rest IH]; intros state outputs; simpl.
  - exists []. now rewrite app_nil_r.
  - destruct (lif_step (inject_Z spike) state w_in w_rec p) as [z state'].
    destruct (IH state' (outputs ++ [z])) as [added [E L]].
    exists (z :: added). rewrite E, <- app_assoc. simpl. auto.
Qed.

Lemma simulate_length (spikes : list Z) :
  length (simulate lif_step p spikes) = length spikes.
Proof.
  unfold simulate.
  destruct (lif_loop_appends spikes state0 []) as [added [E L]].
  now rewrite E.
Qed.

(** Index order: the outputs for the first spikes do not depend on the
    spikes that follow. *)
Lemma simulate_prefix (spikes more : list Z) :
  firstn (length spikes) (simulate lif_step p (spikes ++ more)) =
  simulate lif_step p spikes.
Proof.
  unfold simulate. rewrite lif_loop_app.
  destruct (lif_loop_appends more
              (snd (lif_loop lif_step p state0 [] spikes))
              (fst (lif_loop lif_step p state0 [] spikes)))
    as [added [E _]].
  rewrite E.
  rewrite <- (simulate_length spikes) at 1. unfold simulate.
  rewrite firstn_app, firstn_all, Nat.sub_diag. simpl.
  apply app_nil_r.
Qed.

End Loop.

(** ** Sequencing of script pieces *)

Lemma shown_bind {A B} (m : script A) (k : A -> script B) :
  shown (bind m k) =
  shown m ++ match ended m with
             | Returned a => shown (k a)
             | _ => []
             end.
Proof.
  destruct m as [evs [a | | e]]; simpl.
  - now destruct (k a).
  - now rewrite app_nil_r.
  - now rewrite app_nil_r.
Qed.

Lemma ended_bind {A B} (m : script A) (k : A -> script B) :
  ended (bind m k) =
  match ended m with
  | Returned a => ended (k a)
  | Stopped => Stopped
  | Uncaught e => Uncaught e
  end.
Proof.
  destruct m as [evs [a | | e]]; simpl; try reflexivity.
  now destruct (k a).
Qed.

Lemma bind_returned {A B} (m : script A) (k : A -> script B) (b : B) :
  ended (bind m k) = Returned b ->
  exists a, ended m = Returned a /\ ended (k a) = Returned b.
Proof.
  rewrite ended_bind. destruct (ended m) as [a | | e]; try discriminate.
  intros H. now exists a.
Qed.

Lemma in_shown_bind_l {A B} (m : script A) (k : A -> script B) (x : event) :
  In x (shown m) -> In x (shown (bind m k)).
Proof. intros H. rewrite shown_bind. apply in_or_app. now left. Qed.

Lemma in_shown_bind_r {A B} (m : script A) (k : A -> script B) (a : A)
    (x : event) :
  ended m = Returned a -> In x (shown (k a)) -> In x (shown (bind m k)).
Proof.
  intros E H. rewrite shown_bind, E. apply in_or_app. now right.
Qed.

(** A property of every event shown is kept by sequencing, by [try] and
    by the elementary pieces. *)
Lemma all_shown_bind {A B} (P : event -> Prop) (m : script A)
    (k : A -> script B) :
  Forall P (shown m) -> (forall a, Forall P (shown (k a))) ->
  Forall P (shown (bind m k)).
Proof.
  intros Hm Hk. rewrite shown_bind. apply Forall_app. split; [exact Hm|].
  destruct (ended m); auto.
Qed.

Lemma all_shown_try {A} (P : event -> Prop) (body : script A)
    (handler : exn -> script A) :
  Forall P (shown body) -> (forall e, Forall P (shown (handler e))) ->
  Forall P (shown (try_except body handler)).
Proof.
  intros Hb Hh. destruct body as [evs [a | | e]]; simpl in *; auto.
  specialize (Hh e). destruct (handler e) as [evs' r]. simpl in *.
  apply Forall_app. now split.
Qed.

Lemma all_shown_show (P : event -> Prop) (e : event) :
  P e -> Forall P (shown (show e)).
Proof. intros H. repeat constructor. exact H. Qed.

Lemma all_shown_widget {A} (P : event -> Prop) (name : string) (a : A) :
  P (StWidget name) -> Forall P (shown (widget name a)).
Proof. intros H. repeat constructor. exact H. Qed.

Lemma all_shown_lift {A} (P : event -> Prop) (r : result A) :
  Forall P (shown (lift r)).
Proof. destruct r; constructor. Qed.

Lemma all_shown_ret {A} (P : event -> Prop) (a : A) :
  Forall P (shown (ret a)).
Proof. constructor. Qed.

Lemma all_shown_stop {A} (P : event -> Prop) :
  Forall P (shown (@st_stop A)).
Proof. constructor. Qed.

(** Only [st.stop()] stops a run. *)
Lemma not_stopped_bind {A B} (m : script A) (k : A -> script B) :
  ended m <> Stopped -> (forall a, ended (k a) <> Stopped) ->
  ended (bind m k) <> Stopped.
Proof.
  intros Hm Hk. rewrite ended_bind. destruct (ended m); auto; discriminate.
Qed.

Lemma not_stopped_lift {A} (r : result A) : ended (lift r) <> Stopped.
Proof. destruct r; discriminate. Qed.

(** Breaks a goal about the events of a composed piece into goals about
    the events its parts show. *)
Ltac all_shown :=
  repeat match goal with
    | |- Forall _ (shown (ret _)) => apply all_shown_ret
    | |- Forall _ (shown st_stop) => apply all_shown_stop
    | |- Forall _ (shown (lift _)) => apply all_shown_lift
    | |- Forall _ (shown (show _)) => apply all_shown_show
    | |- Forall _ (shown (widget _ _)) => apply all_shown_widget
    | |- Forall _ (shown (bind _ _)) => apply all_shown_bind; [|intros]
    | |- Forall _ (shown (try_except _ _)) => apply all_shown_try; [|intros]
    | |- Forall _ (shown (let '(_, _) := ?x in _)) => destruct x
    | |- Forall _ (shown (match ?x with Some _ => _ | None => _ end)) =>
        destruct x
    | |- Forall _ (shown (if ?b then _ else _)) => destruct b
    end.

(** The same for the way a composed piece ends. *)
Ltac not_stopped :=
  repeat match goal with
    | |- ended (lift _) <> Stopped => apply not_stopped_lift
    | |- ended (bind _ _) <> Stopped => apply not_stopped_bind; [|intros]
    | |- ended (let '(_, _) := ?x in _) <> Stopped => destruct x
    | |- ended (match ?x with Some _ => _ | None => _ end) <> Stopped =>
        destruct x
    | |- ended (if ?b then _ else _) <> Stopped => destruct b
    | |- ended (ret _) <> Stopped => discriminate
    | |- ended (show _) <> Stopped => discriminate
    | |- ended (widget _ _) <> Stopped => discriminate
    end.

(** ** The fetch block *)

Section Fetch.

Variable forecast_source : Q -> Q -> result (list Q).
Variable lif_step : Norse.step.
Variable hourly : list Q.
Hypothesis source_answers : forall lat lon, forecast_source lat lon = Ok hourly.

Lemma fetch_block_raises (ui : widgets) (lat lon : Q) (e : exn) :
  normalize (firstn 24 hourly) = Raise e ->
  fetch_block forecast_source ui lat lon =
  ([StError "Erreur recuperation meteo" e], Stopped).
Proof.
  intros H. unfold fetch_block. rewrite source_answers.
  cbn [lift ret bind]. now rewrite H.
Qed.

Lemma fetch_block_returns (ui : widgets) (lat lon : Q)
    (wind_norm : list Q) :
  normalize (firstn 24 hourly) = Ok wind_norm ->
  fetch_block forecast_source ui lat lon =
  ([StWidget "threshold"],
   Returned (firstn 24 hourly, wind_norm, threshold ui,
             encode (threshold ui) wind_norm)).
Proof.
  intros H. unfold fetch_block. rewrite source_answers.
  cbn [lift ret bind]. now rewrite H.
Qed.

Lemma main_stops_at_fetch (mail : notification) (ui : widgets) (e : exn) :
  normalize (firstn 24 hourly) = Raise e ->
  main forecast_source lif_step mail ui =
  ([StText "Simulation Neuromorphique des Vents"; StWidget "ville";
    StError "Erreur recuperation meteo" e], Stopped).
Proof.
  intros H. unfold main, run_with, pipeline.
  destruct (villes (ville_nom ui)) as [lat lon] eqn:V.
  cbn [show widget bind]. rewrite V.
  now rewrite (fetch_block_raises ui lat lon e H).
Qed.

End Fetch.

Lemma alert_try_returns (globals : list string) (mail : notification)
    (ui : widgets) :
  ended (alert_try globals mail ui) = Returned tt.
Proof.
  unfold alert_try. cbn [widget bind].
  destruct (envoyer ui); [|reflexivity].
  destruct (load_global globals "MIMEText") as [[]|]; [|reflexivity].
  destruct (build_message mail) as [[]|]; [|reflexivity].
  destruct (load_global globals "smtplib") as [[]|]; [|reflexivity].
  destruct (connect mail) as [[]|]; [|reflexivity].
  destruct (login mail) as [[]|]; [|reflexivity].
  destruct (send_message mail) as [[]|]; reflexivity.
Qed.

Lemma forecast_total (wind : list Q) (w : nat) :
  (1 <= w)%nat -> exists preds, forecast wind w = Ok preds.
Proof.
  intros Hw. unfold forecast, forecast_range.
  rewrite (comprehension_total _ (fun k => mean (slice wind k (k + w)))).
  - eexists. reflexivity.
  - intros k Hk. apply in_seq in Hk. apply window_mean_is_mean; lia.
Qed.

Section ShortSeries.

Variable forecast_source : Q -> Q -> result (list Q).
Variable lif_step : Norse.step.
Variable hourly : list Q.
Hypothesis source_answers : forall lat lon, forecast_source lat lon = Ok hourly.

Lemma main_shows_chart (mail : notification) (ui : widgets)
    (wind_norm : list Q) (preds : list (option Q)) :
  normalize (firstn 24 hourly) = Ok wind_norm ->
  forecast (firstn 24 hourly) (pred_window ui) = Ok preds ->
  In (StPyplot (mkChart (firstn 24 hourly) wind_norm
                  (encode (threshold ui) wind_norm)
                  (simulate lif_step p100 (encode (threshold ui) wind_norm))
                  preds (threshold ui)))
     (shown (main forecast_source lif_step mail ui)).
Proof.
  intros Hn Hf. unfold main, run_with. apply in_shown_bind_l.
  unfold pipeline.
  eapply in_shown_bind_r; [reflexivity|].
  eapply in_shown_bind_r; [reflexivity|].
  destruct (villes (ville_nom ui)) as [lat lon].
  eapply in_shown_bind_r.
  { rewrite (fetch_block_returns _ _ source_answers ui lat lon _ Hn).
    reflexivity. }
  cbn beta iota.
  eapply in_shown_bind_r; [reflexivity|].
  eapply in_shown_bind_r; [rewrite Hf; reflexivity|].
  apply in_shown_bind_l. left. reflexivity.
Qed.

Lemma main_no_fetch_error (mail : notification) (ui : widgets)
    (wind_norm : list Q) :
  normalize (firstn 24 hourly) = Ok wind_norm ->
  Forall (fun ev => forall e, ev <> StError "Erreur recuperation meteo" e)
         (shown (main forecast_source lif_step mail ui)).
Proof.
  intros Hn. unfold main, run_with, pipeline, summary, alert_block, alert_try.
  all_shown; try (intros e'; discriminate).
  rewrite (fetch_block_returns _ _ source_answers ui _ _ _ Hn).
  repeat constructor. discriminate.
Qed.

Lemma main_not_stopped (mail : notification) (ui : widgets)
    (wind_norm : list Q) :
  normalize (firstn 24 hourly) = Ok wind_norm ->
  ended (main forecast_source lif_step mail ui) <> Stopped.
Proof.
  intros Hn. unfold main, run_with, pipeline, summary, alert_block.
  not_stopped.
  - rewrite (fetch_block_returns _ _ source_answers ui _ _ _ Hn).
    discriminate.
  - rewrite alert_try_returns. discriminate.
Qed.

End ShortSeries.

(** ** Constant series *)

(** C6.  When the 24 samples are all equal, line 34 divides by zero; the
    [ZeroDivisionError] is raised inside the [try] of lines 30 to 36, so
    the handler of lines 37 to 39 reports it with [st.error] and the run
    ends by [st.stop()], not by an uncaught exception. *)
Theorem constant_series_is_reported
    (forecast_source : Q -> Q -> result (list Q)) (lif_step : Norse.step)
    (mail : notification) (ui : widgets) (hourly : list Q) (c : Q) :
  (forall lat lon, forecast_source lat lon = Ok hourly) ->
  length hourly = 24%nat ->
  Forall (fun w => w == c) hourly ->
  normalize hourly = Raise ZeroDivisionError /\
  main forecast_source lif_step mail ui =
  ([StText "Simulation Neuromorphique des Vents"; StWidget "ville";
    StError "Erreur recuperation meteo" ZeroDivisionError], Stopped).
Proof.
  intros Hsrc Hlen Hall.
  assert (Hn : normalize hourly = Raise ZeroDivisionError).
  { apply normalize_constant with c; [|exact Hall].
    destruct hourly; [discriminate Hlen | discriminate]. }
  split; [exact Hn|].
  apply main_stops_at_fetch with hourly; [exact Hsrc|].
  rewrite firstn_all2 by lia. exact Hn.
Qed.

Lemma constant_series_is_reported_witness :
  normalize (repeat 15 24) = Raise ZeroDivisionError /\
  main (source_of (repeat 15 24)) Norse.euler_step mail_ok ui0 =
  ([StText "Simulation Neuromorphique des Vents"; StWidget "ville";
    StError "Erreur recuperation meteo" ZeroDivisionError], Stopped).
Proof.
  apply (constant_series_is_reported
           (source_of (repeat 15 24)) Norse.euler_step mail_ok ui0
           (repeat 15 24) 15).
  - intros lat lon. reflexivity.
  - reflexivity.
  - apply Forall_forall. intros x Hx.
    apply repeat_spec in Hx. rewrite Hx. reflexivity.
Defined.

(** ** Fewer than 24 samples *)

(** A source that answers five samples: the run draws the chart from the
    five-sample series and shows the summary, no error is shown and the
    run is not stopped; it ends at the export, on the columns' lengths. *)
Lemma five_samples_not_detected :
  (length five_samples < 24)%nat /\
  (exists c,
     In (StPyplot c)
        (shown (main (source_of five_samples) Norse.euler_step mail_ok ui0)) /\
     chart_wind c = five_samples /\
     length (chart_wind_norm c) = 5%nat /\
     chart_spikes c = [0; 0; 1; 1; 1]%Z) /\
  (forall context e,
     ~ In (StError context e)
          (shown (main (source_of five_samples) Norse.euler_step
                    mail_ok ui0))) /\
  ended (main (source_of five_samples) Norse.euler_step mail_ok ui0) =
  Uncaught (ValueError "All arrays must be of the same length").
Proof.
  split; [simpl; lia|].
  split.
  { eexists. split.
    - vm_compute. do 4 right. left. reflexivity.
    - repeat split. }
  split.
  { intros context e H. vm_compute in H.
    repeat (destruct H as [H | H]; [discriminate H|]). exact H. }
  vm_compute. reflexivity.
Qed.

(** C5, as the code has it.  When the source answers fewer than 24
    samples that are not all equal, the short length is not detected at
    the fetch: the fetch block raises nothing, keeps the samples it got,
    normalises and encodes that shorter series, the chart is drawn from
    it and no fetch error is shown. *)
Theorem short_series_is_processed
    (forecast_source : Q -> Q -> result (list Q)) (lif_step : Norse.step)
    (mail : notification) (ui : widgets) (hourly : list Q) (lo hi : Q) :
  (forall lat lon, forecast_source lat lon = Ok hourly) ->
  (length hourly < 24)%nat ->
  py_min hourly = Ok lo ->
  py_max hourly = Ok hi ->
  ~ hi == lo ->
  (1 <= pred_window ui)%nat ->
  exists wind_norm preds,
    normalize hourly = Ok wind_norm /\
    length wind_norm = length hourly /\
    forecast hourly (pred_window ui) = Ok preds /\
    (forall lat lon,
       fetch_block forecast_source ui lat lon =
       ([StWidget "threshold"],
        Returned (hourly, wind_norm, threshold ui,
                  encode (threshold ui) wind_norm))) /\
    In (StPyplot (mkChart hourly wind_norm
                    (encode (threshold ui) wind_norm)
                    (simulate lif_step p100 (encode (threshold ui) wind_norm))
                    preds (threshold ui)))
       (shown (main forecast_source lif_step mail ui)) /\
    (forall e, ~ In (StError "Erreur recuperation meteo" e)
                    (shown (main forecast_source lif_step mail ui))).
Proof.
  intros Hsrc Hlen Hlo Hhi Hne Hw.
  pose proof (normalize_map hourly lo hi Hlo Hhi Hne) as Hn.
  destruct (forecast_total hourly (pred_window ui) Hw) as [preds Hf].
  assert (Hall : firstn 24 hourly = hourly) by (apply firstn_all2; lia).
  exists (map (fun w => (w - lo) / (hi - lo)) hourly), preds.
  split; [exact Hn|].
  split; [apply length_map|].
  split; [exact Hf|].
  rewrite <- Hall in Hn, Hf.
  split.
  { intros lat lon.
    rewrite (fetch_block_returns _ _ Hsrc ui lat lon _ Hn). now rewrite Hall. }
  split.
  { pose proof (main_shows_chart _ lif_step _ Hsrc mail ui _ _ Hn Hf) as H.
    now rewrite Hall in H. }
  intros e Hin.
  pose proof (main_no_fetch_error _ lif_step _ Hsrc mail ui _ Hn) as H.
  rewrite Forall_forall in H. exact (H _ Hin e eq_refl).
Qed.

Lemma short_series_is_processed_witness :
  exists wind_norm preds,
    normalize five_samples = Ok wind_norm /\
    length wind_norm = length five_samples /\
    forecast five_samples (pred_window ui0) = Ok preds /\
    (forall lat lon,
       fetch_block (source_of five_samples) ui0 lat lon =
       ([StWidget "threshold"],
        Returned (five_samples, wind_norm, threshold ui0,
                  encode (threshold ui0) wind_norm))) /\
    In (StPyplot (mkChart five_samples wind_norm
                    (encode (threshold ui0) wind_norm)
                    (simulate Norse.euler_step p100
                       (encode (threshold ui0) wind_norm))
                    preds (threshold ui0)))
       (shown (main (source_of five_samples) Norse.euler_step mail_ok ui0)) /\
    (forall e, ~ In (StError "Erreur recuperation meteo" e)
                    (shown (main (source_of five_samples) Norse.euler_step
                              mail_ok ui0))).
Proof.
  apply (short_series_is_processed
           (source_of five_samples) Norse.euler_step mail_ok ui0
           five_samples 10 50).
  - intros lat lon. reflexivity.
  - simpl. lia.
  - reflexivity.
  - reflexivity.
  - intros H. discriminate H.
  - simpl. lia.
Defined.

(** ** The summary's next-hour line *)

Lemma getitem_last_of_24 {A} (l : list A) (a : A) :
  length l = 24%nat -> nth_error l 23 = Some a -> getitem l 23 = Ok a.
Proof.
  intros Hlen Hnth. unfold getitem. rewrite Hlen.
  change (match nth_error l 23 with
          | Some x => Ok x
          | None => Raise IndexError
          end = Ok a).
  now rewrite Hnth.
Qed.

Lemma next_hour_of_24 (spikes : list Z) (preds : list (option Q))
    (val : option Q) :
  length spikes = 24%nat -> length preds = 24%nat ->
  nth_error preds 23 = Some val ->
  next_hour spikes preds = Ok val.
Proof.
  intros Hs Hp Hnth. unfold next_hour. rewrite Hs, Hp. simpl.
  now apply getitem_last_of_24.
Qed.

Lemma summary_shown (wind : list Q) (spikes : list Z) (outputs : list Q)
    (preds : list (option Q)) (max_out max_wind : Q) (val : option Q) :
  py_max outputs = Ok max_out ->
  py_max wind = Ok max_wind ->
  next_hour spikes preds = Ok val ->
  summary wind spikes outputs preds =
  ([StText "Analyse";
    StWrite (SpikesDetected (fold_left Z.add spikes 0%Z));
    StWrite (MaxOutput max_out);
    StWrite (MaxWind max_wind);
    match val with
    | Some x => StWrite (PredictedNextHour x)
    | None => StWarning "Prevision indisponible ou non valide."
    end], Returned tt).
Proof.
  intros Ho Hw Hv. unfold summary. rewrite Ho, Hw, Hv.
  destruct val; reflexivity.
Qed.

(** C9.  With 24 samples the value [val] of line 77 is the last forecast
    entry, [preds[23]], and it is what the last line of the summary
    shows: the summary is the heading, the three [st.write] lines, and
    then either [val] as the predicted value or, when [val] is [None],
    the warning.  For a window of 2 or more the entry is [None] and the
    warning is shown; for a window of 1 it is [wind[23]] and that value
    is shown.  So the warning appears exactly for windows of 2 or more,
    a prediction exactly for window 1, and a prediction that is shown is
    the entry [preds[23]]. *)
Theorem next_hour_is_last_entry (wind : list Q) (spikes : list Z)
    (outputs : list Q) (w : nat) :
  length wind = 24%nat ->
  length spikes = 24%nat ->
  length outputs = 24%nat ->
  (1 <= w <= 5)%nat ->
  exists preds val max_out max_wind,
    forecast wind w = Ok preds /\
    nth_error preds 23 = Some val /\
    next_hour spikes preds = Ok val /\
    py_max outputs = Ok max_out /\
    py_max wind = Ok max_wind /\
    summary wind spikes outputs preds =
    ([StText "Analyse";
      StWrite (SpikesDetected (fold_left Z.add spikes 0%Z));
      StWrite (MaxOutput max_out);
      StWrite (MaxWind max_wind);
      match val with
      | Some x => StWrite (PredictedNextHour x)
      | None => StWarning "Prevision indisponible ou non valide."
      end], Returned tt) /\
    (forall x,
       In (StWrite (PredictedNextHour x))
          (shown (summary wind spikes outputs preds)) ->
       nth_error preds 23 = Some (Some x)) /\
    ((2 <= w)%nat -> val = None) /\
    (w = 1%nat ->
     val = Some (mean (slice wind 23 24)) /\
     mean (slice wind 23 24) == nth 23 wind 0) /\
    (In (StWarning "Prevision indisponible ou non valide.")
        (shown (summary wind spikes outputs preds)) <-> (2 <= w)%nat) /\
    ((exists x, In (StWrite (PredictedNextHour x))
                   (shown (summary wind spikes outputs preds))) <-> w = 1%nat).
Proof.
  intros Hwind Hspikes Houtputs Hw.
  destruct (py_max_nonempty outputs) as [max_out Hmo];
    [destruct outputs; discriminate|].
  destruct (py_max_nonempty wind) as [max_wind Hmw];
    [destruct wind; discriminate|].
  pose proof (forecast_is_forecast_24 wind w Hwind Hw) as Hf.
  pose proof (forecast_24_length wind w Hw) as Hlen.
  destruct (Nat.eq_dec w 1) as [-> | Hne].
  - pose proof (forecast_24_value wind 1 23 Hw ltac:(lia)) as Hnth.
    pose proof (next_hour_of_24 spikes _ _ Hspikes Hlen Hnth) as Hnext.
    pose proof (summary_shown _ _ _ _ _ _ _ Hmo Hmw Hnext) as Hsum.
    exists (forecast_24 wind 1), (Some (mean (slice wind 23 (23 + 1)))),
           max_out, max_wind.
    rewrite Hsum.
    split; [exact Hf|]. split; [exact Hnth|]. split; [exact Hnext|].
    split; [exact Hmo|]. split; [exact Hmw|]. split; [reflexivity|].
    split.
    { intros x H. simpl in H.
      repeat (destruct H as [H | H]; [try discriminate H|]);
        [|contradiction].
      injection H as <-. exact Hnth. }
    split; [intros H; lia|].
    split; [intros _; split; [reflexivity | apply mean_of_one; lia]|].
    split.
    + split; [|intros H; lia].
      intros H. simpl in H.
      repeat (destruct H as [H | H]; [discriminate H|]). contradiction.
    + split; [reflexivity|].
      intros _. eexists. simpl. do 4 right. left. reflexivity.
  - pose proof (forecast_24_padding wind w 23 Hw ltac:(lia)) as Hnth.
    pose proof (next_hour_of_24 spikes _ _ Hspikes Hlen Hnth) as Hnext.
    pose proof (summary_shown _ _ _ _ _ _ _ Hmo Hmw Hnext) as Hsum.
    exists (forecast_24 wind w), None, max_out, max_wind.
    rewrite Hsum.
    split; [exact Hf|]. split; [exact Hnth|]. split; [exact Hnext|].
    split; [exact Hmo|]. split; [exact Hmw|]. split; [reflexivity|].
    split.
    { intros x H. simpl in H.
      repeat (destruct H as [H | H]; [discriminate H|]). contradiction. }
    split; [reflexivity|].
    split; [intros H; lia|].
    split.
    + split; [intros _; lia|].
      intros _. simpl. do 4 right. left. reflexivity.
    + split; [|intros H; lia].
      intros [x H]. simpl in H.
      repeat (destruct H as [H | H]; [discriminate H|]). contradiction.
Qed.

Lemma next_hour_is_last_entry_witness :
  (exists preds val max_out max_wind,
     forecast ramp 1 = Ok preds /\
     nth_error preds 23 = Some val /\
     next_hour (encode 0.3 ramp) preds = Ok val /\
     py_max ramp = Ok max_out /\
     py_max ramp = Ok max_wind /\
     summary ramp (encode 0.3 ramp) ramp preds =
     ([StText "Analyse";
       StWrite (SpikesDetected (fold_left Z.add (encode 0.3 ramp) 0%Z));
       StWrite (MaxOutput max_out);
       StWrite (MaxWind max_wind);
       match val with
       | Some x => StWrite (PredictedNextHour x)
       | None => StWarning "Prevision indisponible ou non valide."
       end], Returned tt) /\
     (forall x,
        In (StWrite (PredictedNextHour x))
           (shown (summary ramp (encode 0.3 ramp) ramp preds)) ->
        nth_error preds 23 = Some (Some x)) /\
     ((2 <= 1)%nat -> val = None) /\
     (1%nat = 1%nat ->
      val = Some (mean (slice ramp 23 24)) /\
      mean (slice ramp 23 24) == nth 23 ramp 0) /\
     (In (StWarning "Prevision indisponible ou non valide.")
         (shown (summary ramp (encode 0.3 ramp) ramp preds))
      <-> (2 <= 1)%nat) /\
     ((exists x, In (StWrite (PredictedNextHour x))
                    (shown (summary ramp (encode 0.3 ramp) ramp preds)))
      <-> 1%nat = 1%nat)) /\
  (exists preds val max_out max_wind,
     forecast ramp 3 = Ok preds /\
     nth_error preds 23 = Some val /\
     next_hour (encode 0.3 ramp) preds = Ok val /\
     py_max ramp = Ok max_out /\
     py_max ramp = Ok max_wind /\
     summary ramp (encode 0.3 ramp) ramp preds =
     ([StText "Analyse";
       StWrite (SpikesDetected (fold_left Z.add (encode 0.3 ramp) 0%Z));
       StWrite (MaxOutput max_out);
       StWrite (MaxWind max_wind);
       match val with
       | Some x => StWrite (PredictedNextHour x)
       | None => StWarning "Prevision indisponible ou non valide."
       end], Returned tt) /\
     (forall x,
        In (StWrite (PredictedNextHour x))
           (shown (summary ramp (encode 0.3 ramp) ramp preds)) ->
        nth_error preds 23 = Some (Some x)) /\
     ((2 <= 3)%nat -> val = None) /\
     (3%nat = 1%nat ->
      val = Some (mean (slice ramp 23 24)) /\
      mean (slice ramp 23 24) == nth 23 ramp 0) /\
     (In (StWarning "Prevision indisponible ou non valide.")
         (shown (summary ramp (encode 0.3 ramp) ramp preds))
      <-> (2 <= 3)%nat) /\
     ((exists x, In (StWrite (PredictedNextHour x))
                    (shown (summary ramp (encode 0.3 ramp) ramp preds)))
      <-> 3%nat = 1%nat)).
Proof.
  split.
  - apply (next_hour_is_last_entry ramp (encode 0.3 ramp) ramp 1);
      [reflexivity | reflexivity | reflexivity | lia].
  - apply (next_hour_is_last_entry ramp (encode 0.3 ramp) ramp 3);
      [reflexivity | reflexivity | reflexivity | lia].
Defined.

(** ** Alert condition *)

(** The series the alert block reads is the raw one: the first 24
    samples the source answered. *)
Lemma pipeline_returns_raw
    (forecast_source : Q -> Q -> result (list Q)) (lif_step : Norse.step)
    (ui : widgets) (hourly wind : list Q) :
  (forall lat lon, forecast_source lat lon = Ok hourly) ->
  ended (pipeline forecast_source lif_step ui) = Returned wind ->
  wind = firstn 24 hourly.
Proof.
  intros Hsrc. unfold pipeline. intros H.
  apply bind_returned in H. destruct H as [_ [_ H]].
  apply bind_returned in H. destruct H as [nom [_ H]].
  destruct (villes nom) as [lat lon].
  apply bind_returned in H. destruct H as [[[[w wn] th] sp] [Hfetch H]].
  apply bind_returned in H. destruct H as [pw [_ H]].
  apply bind_returned in H. destruct H as [preds [_ H]].
  apply bind_returned in H. destruct H as [_ [_ H]].
  apply bind_returned in H. destruct H as [u [_ H]].
  apply bind_returned in H. destruct H as [df [_ H]].
  apply bind_returned in H. destruct H as [_ [_ H]].
  simpl in H. injection H as E. subst wind.
  destruct (normalize (firstn 24 hourly)) as [wind_norm | e] eqn:Hn.
  - rewrite (fetch_block_returns _ _ Hsrc ui lat lon _ Hn) in Hfetch.
    unfold ended in Hfetch. cbn [snd] in Hfetch.
    injection Hfetch as E _ _ _. now symmetry.
  - rewrite (fetch_block_raises _ _ Hsrc ui lat lon _ Hn) in Hfetch.
    discriminate Hfetch.
Qed.

(** C4.  The decision of line 99 is [armed AND max(wind) > 30]: it holds
    exactly when the box is ticked and the largest raw sample is strictly
    above 30, it is false whenever the box is not ticked, and it alone
    decides whether the alert block goes on to the [try]. *)
Theorem alert_decision (wind : list Q) (armed : bool) :
  wind <> [] ->
  alert_condition false wind = Ok false /\
  exists m,
    py_max wind = Ok m /\
    In m wind /\
    (forall x, In x wind -> x <= m) /\
    alert_condition armed wind = Ok (armed && Qlt_bool 30 m) /\
    (alert_condition armed wind = Ok true <-> armed = true /\ 30 < m) /\
    (m == 30 -> alert_condition armed wind = Ok false) /\
    (forall globals mail ui,
       alerte_active ui = armed ->
       shown (alert_block globals mail ui wind) =
       StWidget "alerte_active"
       :: (if armed && Qlt_bool 30 m
           then shown (alert_try globals mail ui)
           else [])).
Proof.
  intros Hne. split; [reflexivity|].
  destruct (py_max_nonempty wind Hne) as [m Hm].
  destruct (py_max_spec wind m Hm) as [Hin Hub].
  assert (Hcond : forall b, alert_condition b wind = Ok (b && Qlt_bool 30 m)).
  { intros b. unfold alert_condition.
    destruct b; [now rewrite Hm | reflexivity]. }
  exists m.
  split; [exact Hm|].
  split; [exact Hin|].
  split; [exact Hub|].
  split; [apply Hcond|].
  split.
  { rewrite Hcond. split.
    - intros [= H]. apply andb_true_iff in H. destruct H as [-> H].
      split; [reflexivity | now apply Qlt_bool_iff].
    - intros [-> Hlt]. apply Qlt_bool_iff in Hlt. now rewrite Hlt. }
  split.
  { intros E. rewrite Hcond.
    assert (Hf : Qlt_bool 30 m = false) by (apply Qlt_bool_false_iff; lra).
    rewrite Hf. now rewrite andb_false_r. }
  intros globals mail ui Harmed. unfold alert_block. cbn [widget bind].
  rewrite Harmed, Hcond. cbn [lift ret bind].
  destruct (armed && Qlt_bool 30 m).
  - destruct (alert_try globals mail ui) as [evs r]. reflexivity.
  - reflexivity.
Qed.

Lemma alert_decision_witness :
  alert_condition false [12; 35; 20] = Ok false /\
  exists m,
    py_max [12; 35; 20] = Ok m /\
    In m [12; 35; 20] /\
    (forall x, In x [12; 35; 20] -> x <= m) /\
    alert_condition true [12; 35; 20] = Ok (true && Qlt_bool 30 m) /\
    (alert_condition true [12; 35; 20] = Ok true <-> true = true /\ 30 < m) /\
    (m == 30 -> alert_condition true [12; 35; 20] = Ok false) /\
    (forall globals mail ui,
       alerte_active ui = true ->
       shown (alert_block globals mail ui [12; 35; 20]) =
       StWidget "alerte_active"
       :: (if true && Qlt_bool 30 m
           then shown (alert_try globals mail ui)
           else [])).
Proof.
  apply (alert_decision [12; 35; 20] true).
  discriminate.
Defined.

(** ** A well-formed run *)

Lemma data_frame_same_length (c_heure : list Z) :
  forall (c_vent c_norm : list Q) (c_spike : list Z) (c_sortie : list Q)
         (c_predit : list (option Q)),
    length c_vent = length c_heure ->
    length c_norm = length c_heure ->
    length c_spike = length c_heure ->
    length c_sortie = length c_heure ->
    length c_predit = length c_heure ->
    exists rows,
      data_frame c_heure c_vent c_norm c_spike c_sortie c_predit = Ok rows /\
      length rows = length c_heure.
Proof.
  induction c_heure as [|h hs IH];
    intros [|w ws] [|n ns] [|s ss] [|o os] [|q qs]; simpl;
    intros H1 H2 H3 H4 H5; try discriminate.
  - exists []. auto.
  - destruct (IH ws ns ss os qs) as [rows [E L]]; try lia.
    rewrite E. simpl. eexists. split; [reflexivity|]. simpl. lia.
Qed.

Section WellFormed.

Variable forecast_source : Q -> Q -> result (list Q).
Variable lif_step : Norse.step.
Variable hourly : list Q.
Hypothesis source_answers : forall lat lon, forecast_source lat lon = Ok hourly.

(** On at least 24 samples that are not all equal and a window in
    [1,5], lines 15 to 96 run to their end. *)
Lemma pipeline_completes (ui : widgets) (lo hi : Q) :
  (24 <= length hourly)%nat ->
  py_min (firstn 24 hourly) = Ok lo ->
  py_max (firstn 24 hourly) = Ok hi ->
  ~ hi == lo ->
  (1 <= pred_window ui <= 5)%nat ->
  ended (pipeline forecast_source lif_step ui) = Returned (firstn 24 hourly).
Proof.
  intros Hlen Hlo Hhi Hne Hw.
  set (wind := firstn 24 hourly) in *.
  assert (Hwind : length wind = 24%nat)
    by (unfold wind; rewrite length_firstn; lia).
  pose proof (normalize_map wind lo hi Hlo Hhi Hne) as Hn.
  set (wind_norm := map (fun w => (w - lo) / (hi - lo)) wind) in *.
  set (spikes := encode (threshold ui) wind_norm).
  set (outputs := simulate lif_step p100 spikes).
  assert (Hnorm : length wind_norm = 24%nat)
    by (unfold wind_norm; now rewrite length_map).
  assert (Hspikes : length spikes = 24%nat)
    by (unfold spikes; now rewrite encode_length).
  assert (Houtputs : length outputs = 24%nat)
    by (unfold outputs; now rewrite simulate_length).
  pose proof (forecast_is_forecast_24 wind _ Hwind Hw) as Hf.
  pose proof (forecast_24_length wind _ Hw) as Hpreds.
  destruct (py_max_nonempty outputs) as [max_out Hmo];
    [destruct outputs; discriminate|].
  assert (Hnext : exists val, next_hour spikes (forecast_24 wind (pred_window ui)) = Ok val).
  { destruct (nth_error (forecast_24 wind (pred_window ui)) 23) as [val|] eqn:E.
    - exists val. now apply next_hour_of_24.
    - apply nth_error_None in E. lia. }
  destruct Hnext as [val Hnext].
  destruct (data_frame_same_length (map Z.of_nat (seq 0 24))
              wind wind_norm spikes outputs (forecast_24 wind (pred_window ui)))
    as [rows [Hdf _]]; rewrite ?length_map, ?length_seq; try assumption.
  unfold pipeline.
  rewrite ended_bind. cbn [ended snd show].
  rewrite ended_bind. cbn [ended snd widget].
  destruct (villes (ville_nom ui)) as [lat lon].
  rewrite ended_bind.
  rewrite (fetch_block_returns _ _ source_answers ui lat lon _ Hn).
  cbn [ended snd].
  rewrite ended_bind. cbn [ended snd widget].
  rewrite ended_bind. fold wind. rewrite Hf. cbn [ended snd lift ret].
  rewrite ended_bind. cbn [ended snd show].
  rewrite ended_bind.
  fold wind_norm. fold spikes. fold outputs.
  rewrite (summary_shown _ _ _ _ _ _ _ Hmo Hhi Hnext). cbn [ended snd].
  rewrite ended_bind, Hdf. cbn [ended snd lift ret].
  rewrite ended_bind. reflexivity.
Qed.

End WellFormed.

(** ** The alert block *)

(** With the names of [main.py], the first statement after the button
    raises [NameError]: the handler reports it. *)
Lemma alert_try_module (mail : notification) (ui : widgets) :
  alert_try module_globals mail ui =
  ([StWidget "receiver"; StWidget "envoyer"]
   ++ (if envoyer ui
       then [StError "Erreur lors de l'envoi" (NameError "MIMEText")]
       else []),
   Returned tt).
Proof.
  unfold alert_try. cbn [widget bind].
  destruct (envoyer ui); reflexivity.
Qed.

Lemma pipeline_returned_nonempty
    (forecast_source : Q -> Q -> result (list Q)) (lif_step : Norse.step)
    (ui : widgets) (wind : list Q) :
  ended (pipeline forecast_source lif_step ui) = Returned wind -> wind <> [].
Proof.
  unfold pipeline. intros H.
  apply bind_returned in H. destruct H as [_ [_ H]].
  apply bind_returned in H. destruct H as [nom [_ H]].
  destruct (villes nom) as [lat lon].
  apply bind_returned in H. destruct H as [[[[w wn] th] sp] [_ H]].
  apply bind_returned in H. destruct H as [pw [_ H]].
  apply bind_returned in H. destruct H as [preds [_ H]].
  apply bind_returned in H. destruct H as [_ [_ H]].
  apply bind_returned in H. destruct H as [u [Hs H]].
  apply bind_returned in H. destruct H as [df [_ H]].
  apply bind_returned in H. destruct H as [_ [_ H]].
  simpl in H. injection H as E. subst wind.
  unfold summary in Hs.
  apply bind_returned in Hs. destruct Hs as [_ [_ Hs]].
  apply bind_returned in Hs. destruct Hs as [_ [_ Hs]].
  apply bind_returned in Hs. destruct Hs as [mo [_ Hs]].
  apply bind_returned in Hs. destruct Hs as [_ [_ Hs]].
  apply bind_returned in Hs. destruct Hs as [mw [Hmw _]].
  destruct w; [discriminate Hmw | discriminate].
Qed.

Lemma alert_block_returns (globals : list string) (mail : notification)
    (ui : widgets) (wind : list Q) :
  wind <> [] -> ended (alert_block globals mail ui wind) = Returned tt.
Proof.
  intros Hne. unfold alert_block. cbn [widget bind].
  destruct (py_max_nonempty wind Hne) as [m Hm].
  unfold alert_condition. destruct (alerte_active ui); [|reflexivity].
  rewrite Hm. cbn [rbind lift ret].
  destruct (Qlt_bool 30 m); [|reflexivity].
  pose proof (alert_try_returns globals mail ui) as H.
  destruct (alert_try globals mail ui) as [evs r]. simpl in *. now subst.
Qed.

(** C7.  Whatever the module's names are and whatever the e-mail
    libraries answer, the [try] of lines 100 to 117 ends normally; when
    the button is pressed and any step of the attempt raises, an error is
    shown and no success.  The alert block comes after the pipeline, so a
    whole run shows what the pipeline shows, then what the alert block
    shows; a run whose pipeline completes completes, and a run ends early
    only where its pipeline does.  The pipeline reads none of the alert's
    widgets. *)
Theorem alert_failure_is_contained
    (forecast_source : Q -> Q -> result (list Q)) (lif_step : Norse.step)
    (globals : list string) (mail : notification) (ui : widgets) :
  ended (alert_try globals mail ui) = Returned tt /\
  (envoyer ui = true ->
   (exists e,
      In (Raise e)
         [load_global globals "MIMEText"; build_message mail;
          load_global globals "smtplib"; connect mail; login mail;
          send_message mail]) ->
   exists e,
     In (Raise e)
        [load_global globals "MIMEText"; build_message mail;
         load_global globals "smtplib"; connect mail; login mail;
         send_message mail] /\
     shown (alert_try globals mail ui) =
     [StWidget "receiver"; StWidget "envoyer";
      StError "Erreur lors de l'envoi" e]) /\
  (exists alert_shown,
     shown (run_with forecast_source lif_step globals mail ui) =
     shown (pipeline forecast_source lif_step ui) ++ alert_shown) /\
  (forall wind,
     ended (pipeline forecast_source lif_step ui) = Returned wind ->
     ended (run_with forecast_source lif_step globals mail ui) = Returned tt) /\
  (ended (pipeline forecast_source lif_step ui) = Stopped ->
   run_with forecast_source lif_step globals mail ui =
   (shown (pipeline forecast_source lif_step ui), Stopped)) /\
  (forall e,
     ended (pipeline forecast_source lif_step ui) = Uncaught e ->
     run_with forecast_source lif_step globals mail ui =
     (shown (pipeline forecast_source lif_step ui), Uncaught e)) /\
  (forall ui',
     ville_nom ui' = ville_nom ui ->
     threshold ui' = threshold ui ->
     pred_window ui' = pred_window ui ->
     pipeline forecast_source lif_step ui' =
     pipeline forecast_source lif_step ui).
Proof.
  split; [apply alert_try_returns|].
  split.
  { intros Hpressed [e0 Hin]. unfold alert_try. cbn [widget bind].
    rewrite Hpressed.
    destruct (load_global globals "MIMEText") as [[]|e1];
      [|exists e1; simpl; auto].
    destruct (build_message mail) as [[]|e2]; [|exists e2; simpl; auto].
    destruct (load_global globals "smtplib") as [[]|e3];
      [|exists e3; simpl; auto].
    destruct (connect mail) as [[]|e4]; [|exists e4; simpl; auto 6].
    destruct (login mail) as [[]|e5]; [|exists e5; simpl; auto 7].
    destruct (send_message mail) as [[]|e6]; [|exists e6; simpl; auto 8].
    exfalso. simpl in Hin.
    repeat (destruct Hin as [Hin | Hin]; [discriminate Hin|]). exact Hin. }
  split.
  { eexists. unfold run_with. rewrite shown_bind. reflexivity. }
  split.
  { intros wind Hret. unfold run_with. rewrite ended_bind, Hret.
    apply alert_block_returns.
    now apply pipeline_returned_nonempty in Hret. }
  split.
  { intros Hstop. unfold run_with.
    destruct (pipeline forecast_source lif_step ui) as [evs r].
    simpl in *. now subst. }
  split.
  { intros e Hraise. unfold run_with.
    destruct (pipeline forecast_source lif_step ui) as [evs r].
    simpl in *. now subst. }
  intros ui' Hville Hthreshold Hwindow.
  unfold pipeline, fetch_block.
  now rewrite Hville, Hthreshold, Hwindow.
Qed.

Lemma alert_failure_is_contained_witness :
  ended (pipeline (source_of ramp) Norse.euler_step ui0) = Returned ramp /\
  ended (run_with (source_of ramp) Norse.euler_step
           globals_with_mail mail_refused ui0) = Returned tt /\
  (exists e,
     In (Raise e)
        [load_global globals_with_mail "MIMEText"; build_message mail_refused;
         load_global globals_with_mail "smtplib"; connect mail_refused;
         login mail_refused; send_message mail_refused] /\
     shown (alert_try globals_with_mail mail_refused ui0) =
     [StWidget "receiver"; StWidget "envoyer";
      StError "Erreur lors de l'envoi" e]).
Proof.
  destruct (alert_failure_is_contained
              (source_of ramp) Norse.euler_step
              globals_with_mail mail_refused ui0)
    as (_ & Hreported & _ & Hcompletes & _).
  assert (Hpipeline :
            ended (pipeline (source_of ramp) Norse.euler_step ui0)
            = Returned ramp) by (vm_compute; reflexivity).
  split; [exact Hpipeline|].
  split; [exact (Hcompletes ramp Hpipeline)|].
  apply Hreported; [reflexivity|].
  exists (SMTPError "authentication failed"). simpl. auto 6.
Defined.

(** C10.  [MIMEText] and [smtplib] are not among the names of [main.py],
    so pressing the button always ends in the handler: the attempt shows
    [NameError] for [MIMEText], and no run of the script ever shows the
    success message. *)
Theorem alert_mail_never_sent
    (forecast_source : Q -> Q -> result (list Q)) (lif_step : Norse.step)
    (mail : notification) (ui : widgets) :
  load_global module_globals "MIMEText" = Raise (NameError "MIMEText") /\
  load_global module_globals "smtplib" = Raise (NameError "smtplib") /\
  (forall text,
     ~ In (StSuccess text) (shown (main forecast_source lif_step mail ui))) /\
  (envoyer ui = true ->
   alert_try module_globals mail ui =
   ([StWidget "receiver"; StWidget "envoyer";
     StError "Erreur lors de l'envoi" (NameError "MIMEText")],
    Returned tt)) /\
  (envoyer ui = true ->
   forall wind,
     ended (pipeline forecast_source lif_step ui) = Returned wind ->
     alert_condition (alerte_active ui) wind = Ok true ->
     main forecast_source lif_step mail ui =
     (shown (pipeline forecast_source lif_step ui)
      ++ [StWidget "alerte_active"; StWidget "receiver"; StWidget "envoyer";
          StError "Erreur lors de l'envoi" (NameError "MIMEText")],
      Returned tt)).
Proof.
  split; [reflexivity|].
  split; [reflexivity|].
  split.
  { intros text Hin.
    assert (H : Forall (fun ev => forall t, ev <> StSuccess t)
                  (shown (main forecast_source lif_step mail ui))).
    { unfold main, run_with, pipeline, fetch_block, summary, alert_block.
      all_shown; try (intros t; discriminate).
      rewrite alert_try_module.
      destruct (envoyer ui); repeat constructor; discriminate. }
    rewrite Forall_forall in H. exact (H _ Hin text eq_refl). }
  split.
  { intros Hpressed. rewrite alert_try_module, Hpressed. reflexivity. }
  intros Hpressed wind Hret Hcond. unfold main, run_with.
  destruct (pipeline forecast_source lif_step ui) as [evs r].
  simpl in Hret. subst r. cbn [bind shown fst].
  unfold alert_block. cbn [widget bind]. rewrite Hcond. cbn [lift ret bind].
  rewrite alert_try_module, Hpressed. reflexivity.
Qed.

Lemma alert_mail_never_sent_witness :
  main (source_of ramp) Norse.euler_step mail_ok ui0 =
  (shown (pipeline (source_of ramp) Norse.euler_step ui0)
   ++ [StWidget "alerte_active"; StWidget "receiver"; StWidget "envoyer";
       StError "Erreur lors de l'envoi" (NameError "MIMEText")],
   Returned tt).
Proof.
  destruct (alert_mail_never_sent
              (source_of ramp) Norse.euler_step mail_ok ui0)
    as (_ & _ & _ & _ & Hattempt).
  apply (Hattempt eq_refl ramp).
  - vm_compute. reflexivity.
  - vm_compute. reflexivity.
Defined.

(** * Further properties of the script *)

(** ** The source and the fetch block *)

(** A run consults the source at the chosen city's coordinates only, and
    keeps the first 24 samples of its answer. *)
Lemma main_reads_one_city
    (source source' : Q -> Q -> result (list Q)) (lif_step : Norse.step)
    (mail : notification) (ui : widgets) :
  fetched source ui = fetched source' ui ->
  main source lif_step mail ui = main source' lif_step mail ui.
Proof.
  unfold fetched, main, run_with, pipeline. cbn [show widget bind].
  destruct (villes (ville_nom ui)) as [lat lon]. intros H.
  unfold fetch_block. now rewrite H.
Qed.

Lemma main_as_constant_source
    (source : Q -> Q -> result (list Q)) (lif_step : Norse.step)
    (mail : notification) (ui : widgets) (hourly : list Q) :
  fetched source ui = Ok hourly ->
  main source lif_step mail ui = main (source_of hourly) lif_step mail ui.
Proof.
  intros H. apply main_reads_one_city. rewrite H. unfold fetched, source_of.
  now destruct (villes (ville_nom ui)).
Qed.

Lemma main_when_source_raises
    (source : Q -> Q -> result (list Q)) (lif_step : Norse.step)
    (mail : notification) (ui : widgets) (e : exn) :
  fetched source ui = Raise e ->
  main source lif_step mail ui =
  ([StText "Simulation Neuromorphique des Vents"; StWidget "ville";
    StError "Erreur recuperation meteo" e], Stopped).
Proof.
  unfold fetched, main, run_with, pipeline. cbn [show widget bind].
  destruct (villes (ville_nom ui)) as [lat lon]. intros H.
  unfold fetch_block. now rewrite H.
Qed.

(** X1.  A run is stopped exactly where the fetch block fails.  If the
    source raises, or the normalisation of its first 24 samples raises,
    the run shows the title, the city widget and the error, and stops:
    no chart, no summary, no export, no alert.  If both succeed the run
    is never stopped and never shows the fetch error. *)
Theorem run_stops_only_at_fetch
    (source : Q -> Q -> result (list Q)) (lif_step : Norse.step)
    (mail : notification) (ui : widgets) :
  (forall e,
     fetched source ui = Raise e ->
     main source lif_step mail ui =
     ([StText "Simulation Neuromorphique des Vents"; StWidget "ville";
       StError "Erreur recuperation meteo" e], Stopped)) /\
  (forall hourly e,
     fetched source ui = Ok hourly ->
     normalize (firstn 24 hourly) = Raise e ->
     main source lif_step mail ui =
     ([StText "Simulation Neuromorphique des Vents"; StWidget "ville";
       StError "Erreur recuperation meteo" e], Stopped)) /\
  (forall hourly wind_norm,
     fetched source ui = Ok hourly ->
     normalize (firstn 24 hourly) = Ok wind_norm ->
     ended (main source lif_step mail ui) <> Stopped /\
     forall e, ~ In (StError "Erreur recuperation meteo" e)
                    (shown (main source lif_step mail ui))) /\
  (ended (main source lif_step mail ui) = Stopped ->
   exists e,
     shown (main source lif_step mail ui) =
     [StText "Simulation Neuromorphique des Vents"; StWidget "ville";
      StError "Erreur recuperation meteo" e]).
Proof.
  assert (Hraise : forall hourly e,
            fetched source ui = Ok hourly ->
            normalize (firstn 24 hourly) = Raise e ->
            main source lif_step mail ui =
            ([StText "Simulation Neuromorphique des Vents"; StWidget "ville";
              StError "Erreur recuperation meteo" e], Stopped)).
  { intros hourly e Hsrc Hn.
    rewrite (main_as_constant_source _ _ _ _ _ Hsrc).
    now apply main_stops_at_fetch with hourly. }
  assert (Hok : forall hourly wind_norm,
            fetched source ui = Ok hourly ->
            normalize (firstn 24 hourly) = Ok wind_norm ->
            ended (main source lif_step mail ui) <> Stopped /\
            forall e, ~ In (StError "Erreur recuperation meteo" e)
                           (shown (main source lif_step mail ui))).
  { intros hourly wind_norm Hsrc Hn.
    rewrite (main_as_constant_source _ _ _ _ _ Hsrc). split.
    - now apply main_not_stopped with hourly wind_norm.
    - intros e Hin.
      assert (H : Forall
                    (fun ev => forall e, ev <> StError "Erreur recuperation meteo" e)
                    (shown (main (source_of hourly) lif_step mail ui)))
        by now apply main_no_fetch_error with hourly wind_norm.
      rewrite Forall_forall in H. exact (H _ Hin e eq_refl). }
  split; [intros e; apply main_when_source_raises|].
  split; [exact Hraise|].
  split; [exact Hok|].
  intros Hstop.
  destruct (fetched source ui) as [hourly | e] eqn:Hsrc.
  - destruct (normalize (firstn 24 hourly)) as [wind_norm | e] eqn:Hn.
    + destruct (Hok hourly wind_norm eq_refl Hn) as [Hns _]. contradiction.
    + exists e. now rewrite (Hraise hourly e eq_refl Hn).
  - exists e. now rewrite (main_when_source_raises _ _ _ _ _ Hsrc).
Qed.

Lemma run_stops_only_at_fetch_witness :
  main source_down Norse.euler_step mail_ok ui0 =
  ([StText "Simulation Neuromorphique des Vents"; StWidget "ville";
    StError "Erreur recuperation meteo" (RequestError "connection refused")],
   Stopped).
Proof.
  destruct (run_stops_only_at_fetch source_down Norse.euler_step mail_ok ui0)
    as [Hdown _].
  apply Hdown. reflexivity.
Defined.

(** X2.  Only the first 24 samples of the answer matter: two sources
    whose answers for the chosen city agree on their first 24 samples
    give the same run. *)
Theorem only_first_24_samples_matter
    (source source' : Q -> Q -> result (list Q)) (lif_step : Norse.step)
    (mail : notification) (ui : widgets) (hourly hourly' : list Q) :
  fetched source ui = Ok hourly ->
  fetched source' ui = Ok hourly' ->
  firstn 24 hourly = firstn 24 hourly' ->
  main source lif_step mail ui = main source' lif_step mail ui.
Proof.
  intros H H' Heq.
  rewrite (main_as_constant_source _ _ _ _ _ H).
  rewrite (main_as_constant_source _ _ _ _ _ H').
  unfold main, run_with, pipeline. cbn [show widget bind].
  destruct (villes (ville_nom ui)) as [lat lon].
  unfold fetch_block, source_of. cbn [lift ret bind].
  now rewrite Heq.
Qed.

Lemma only_first_24_samples_matter_witness :
  main (source_of (ramp ++ [999; 0])) Norse.euler_step mail_ok ui0 =
  main (source_of ramp) Norse.euler_step mail_ok ui0.
Proof.
  apply (only_first_24_samples_matter
           (source_of (ramp ++ [999; 0])) (source_of ramp)
           Norse.euler_step mail_ok ui0 (ramp ++ [999; 0]) ramp).
  - reflexivity.
  - reflexivity.
  - reflexivity.
Defined.

(** ** Runs past the fetch block *)

(** Lines 72 to 96, once the series are known. *)
Lemma pipeline_past_chart (hourly : list Q) (lif_step : Norse.step)
    (ui : widgets) (wind_norm : list Q) (preds : list (option Q)) :
  normalize (firstn 24 hourly) = Ok wind_norm ->
  forecast (firstn 24 hourly) (pred_window ui) = Ok preds ->
  pipeline (source_of hourly) lif_step ui =
  bind ([StText "Simulation Neuromorphique des Vents"; StWidget "ville";
         StWidget "threshold"; StWidget "pred_window";
         StPyplot (mkChart (firstn 24 hourly) wind_norm
                     (encode (threshold ui) wind_norm)
                     (simulate lif_step p100 (encode (threshold ui) wind_norm))
                     preds (threshold ui))], Returned tt)
       (fun _ =>
          bind (summary (firstn 24 hourly) (encode (threshold ui) wind_norm)
                  (simulate lif_step p100 (encode (threshold ui) wind_norm))
                  preds)
            (fun _ =>
               bind (lift (data_frame (map Z.of_nat (seq 0 24))
                             (firstn 24 hourly) wind_norm
                             (encode (threshold ui) wind_norm)
                             (simulate lif_step p100
                                (encode (threshold ui) wind_norm))
                             preds))
                 (fun df =>
                    bind (show (StDownloadButton df))
                      (fun _ => ret (firstn 24 hourly))))).
Proof.
  intros Hn Hf. unfold pipeline. cbn [show widget bind].
  destruct (villes (ville_nom ui)) as [lat lon].
  rewrite (fetch_block_returns (source_of hourly) hourly
             (fun _ _ => eq_refl) ui lat lon wind_norm Hn).
  cbn [bind]. rewrite Hf. cbn [lift ret bind].
  match goal with
  | |- context [bind (summary ?a ?b ?c ?d) ?k] =>
      destruct (bind (summary a b c d) k) as [evs r]
  end.
  reflexivity.
Qed.

Lemma forecast_has_24_entries (wind : list Q) (w : nat)
    (preds : list (option Q)) :
  (1 <= w)%nat -> (length wind <= 24)%nat ->
  forecast wind w = Ok preds -> length preds = 24%nat.
Proof.
  intros Hw Hlen. unfold forecast.
  destruct (comprehension (window_mean wind w) (forecast_range wind w))
    as [means | e] eqn:E; unfold rbind; [|discriminate].
  intros H.
  assert (Hp : preds = map Some means ++ repeat None (24 - length means))
    by congruence.
  apply comprehension_length in E.
  unfold forecast_range in E. rewrite length_seq in E.
  rewrite Hp, length_app, length_map, repeat_length. lia.
Qed.

Lemma getitem_in_range {A} (l : list A) (k : nat) :
  (k < length l)%nat ->
  exists a, getitem l (Z.of_nat k) = Ok a /\ nth_error l k = Some a.
Proof.
  intros Hk. unfold getitem.
  destruct (Z.of_nat k <? 0)%Z eqn:Eneg; [apply Z.ltb_lt in Eneg; lia|].
  rewrite Eneg. simpl.
  destruct (Z.of_nat (length l) <=? Z.of_nat k)%Z eqn:Ehigh;
    [apply Z.leb_le in Ehigh; lia|].
  rewrite Nat2Z.id.
  destruct (nth_error l k) as [a|] eqn:E.
  - exists a. auto.
  - apply nth_error_None in E. lia.
Qed.

Lemma next_hour_in_range (spikes : list Z) (preds : list (option Q)) :
  (1 <= length spikes <= 24)%nat -> length preds = 24%nat ->
  exists val,
    next_hour spikes preds = Ok val /\
    nth_error preds (length spikes - 1) = Some val.
Proof.
  intros Hs Hp. unfold next_hour. rewrite Hp.
  assert (Hle : (length spikes <=? 24)%nat = true) by (apply Nat.leb_le; lia).
  rewrite Hle. cbn [Nat.eqb negb andb].
  replace (Z.of_nat (length spikes) - 1)%Z
    with (Z.of_nat (length spikes - 1)) by lia.
  apply getitem_in_range. lia.
Qed.

Lemma data_frame_length_mismatch (c_heure : list Z) :
  forall (c_vent c_norm : list Q) (c_spike : list Z) (c_sortie : list Q)
         (c_predit : list (option Q)),
    length c_vent <> length c_heure ->
    data_frame c_heure c_vent c_norm c_spike c_sortie c_predit =
    Raise (ValueError "All arrays must be of the same length").
Proof.
  induction c_heure as [|h hs IH];
    intros [|w ws] [|n ns] [|s ss] [|o os] [|q qs] Hne;
    simpl in *; try reflexivity; try congruence.
  rewrite IH by congruence. reflexivity.
Qed.

Lemma data_frame_columns (c_heure : list Z) :
  forall (c_vent c_norm : list Q) (c_spike : list Z) (c_sortie : list Q)
         (c_predit : list (option Q)) (rows : list csv_row),
    data_frame c_heure c_vent c_norm c_spike c_sortie c_predit = Ok rows ->
    map heure rows = c_heure /\
    map vent rows = c_vent /\
    map vent_normalise rows = c_norm /\
    map spike_col rows = c_spike /\
    map sortie_neurone rows = c_sortie /\
    map vent_predit rows = c_predit.
Proof.
  induction c_heure as [|h hs IH];
    intros [|w ws] [|n ns] [|s ss] [|o os] [|q qs] rows;
    simpl; try discriminate.
  - intros [= <-]. repeat split.
  - destruct (data_frame hs ws ns ss os qs) as [rest | e] eqn:E;
      simpl; [|discriminate].
    intros [= <-].
    destruct (IH _ _ _ _ _ _ E) as (H1 & H2 & H3 & H4 & H5 & H6).
    simpl. repeat split; congruence.
Qed.

(** X3.  When the source answers no sample at all the fetch block raises
    nothing (the comprehension of line 34 never calls [min]): the chart
    is drawn from empty series and a forecast of 24 [None], and the run
    ends in the summary, where [max(outputs)] raises an exception nobody
    catches. *)
Theorem empty_answer_fails_in_summary
    (source : Q -> Q -> result (list Q)) (lif_step : Norse.step)
    (mail : notification) (ui : widgets) :
  fetched source ui = Ok [] ->
  (1 <= pred_window ui)%nat ->
  main source lif_step mail ui =
  ([StText "Simulation Neuromorphique des Vents"; StWidget "ville";
    StWidget "threshold"; StWidget "pred_window";
    StPyplot (mkChart [] [] [] [] (repeat None 24) (threshold ui));
    StText "Analyse"; StWrite (SpikesDetected 0)],
   Uncaught (ValueError "max() arg is an empty sequence")).
Proof.
  intros Hsrc Hw.
  rewrite (main_as_constant_source _ _ _ _ _ Hsrc).
  assert (Hf : forecast (firstn 24 []) (pred_window ui) = Ok (repeat None 24)).
  { unfold forecast, forecast_range. cbn [firstn length].
    replace (0 + 1 - pred_window ui)%nat with 0%nat by lia. reflexivity. }
  unfold main, run_with.
  rewrite (pipeline_past_chart [] lif_step ui [] _ eq_refl Hf).
  reflexivity.
Qed.

Lemma empty_answer_fails_in_summary_witness :
  main (source_of []) Norse.euler_step mail_ok ui0 =
  ([StText "Simulation Neuromorphique des Vents"; StWidget "ville";
    StWidget "threshold"; StWidget "pred_window";
    StPyplot (mkChart [] [] [] [] (repeat None 24) (threshold ui0));
    StText "Analyse"; StWrite (SpikesDetected 0)],
   Uncaught (ValueError "max() arg is an empty sequence")).
Proof.
  apply (empty_answer_fails_in_summary
           (source_of []) Norse.euler_step mail_ok ui0).
  - reflexivity.
  - simpl. lia.
Defined.

(** X4.  Whenever the first 24 samples of a non-empty answer are all
    equal, whatever their number (a single sample is such an answer), the
    division of line 34 raises, the handler reports it and the run
    stops. *)
Theorem constant_answer_stops_the_run
    (source : Q -> Q -> result (list Q)) (lif_step : Norse.step)
    (mail : notification) (ui : widgets) (hourly : list Q) (c : Q) :
  fetched source ui = Ok hourly ->
  hourly <> [] ->
  Forall (fun w => w == c) (firstn 24 hourly) ->
  main source lif_step mail ui =
  ([StText "Simulation Neuromorphique des Vents"; StWidget "ville";
    StError "Erreur recuperation meteo" ZeroDivisionError], Stopped).
Proof.
  intros Hsrc Hne Hall.
  rewrite (main_as_constant_source _ _ _ _ _ Hsrc).
  apply main_stops_at_fetch with hourly; [reflexivity|].
  apply normalize_constant with c; [|exact Hall].
  destruct hourly; [congruence | discriminate].
Qed.

Lemma constant_answer_stops_the_run_witness :
  main (source_of [7]) Norse.euler_step mail_ok ui0 =
  ([StText "Simulation Neuromorphique des Vents"; StWidget "ville";
    StError "Erreur recuperation meteo" ZeroDivisionError], Stopped).
Proof.
  apply (constant_answer_stops_the_run
           (source_of [7]) Norse.euler_step mail_ok ui0 [7] 7).
  - reflexivity.
  - discriminate.
  - repeat constructor.
Defined.

(** X5.  When the source answers fewer than 24 samples that are not all
    equal, the chart and the whole summary are produced from the short
    series; the run then ends at the export, where the 24 hours and the
    shorter columns do not fit: nobody catches that exception, the
    download button is not shown and the alert block is not reached. *)
Theorem short_answer_fails_at_export
    (source : Q -> Q -> result (list Q)) (lif_step : Norse.step)
    (mail : notification) (ui : widgets) (hourly : list Q) (lo hi : Q) :
  fetched source ui = Ok hourly ->
  (length hourly < 24)%nat ->
  py_min hourly = Ok lo ->
  py_max hourly = Ok hi ->
  ~ hi == lo ->
  (1 <= pred_window ui)%nat ->
  exists wind_norm preds max_out val,
    normalize hourly = Ok wind_norm /\
    forecast hourly (pred_window ui) = Ok preds /\
    py_max (simulate lif_step p100 (encode (threshold ui) wind_norm))
    = Ok max_out /\
    nth_error preds (length hourly - 1) = Some val /\
    main source lif_step mail ui =
    ([StText "Simulation Neuromorphique des Vents"; StWidget "ville";
      StWidget "threshold"; StWidget "pred_window";
      StPyplot (mkChart hourly wind_norm
                  (encode (threshold ui) wind_norm)
                  (simulate lif_step p100 (encode (threshold ui) wind_norm))
                  preds (threshold ui));
      StText "Analyse";
      StWrite (SpikesDetected
                 (fold_left Z.add (encode (threshold ui) wind_norm) 0%Z));
      StWrite (MaxOutput max_out);
      StWrite (MaxWind hi);
      match val with
      | Some x => StWrite (PredictedNextHour x)
      | None => StWarning "Prevision indisponible ou non valide."
      end],
     Uncaught (ValueError "All arrays must be of the same length")).
Proof.
  intros Hsrc Hlen Hlo Hhi Hne Hw.
  assert (Hall : firstn 24 hourly = hourly) by (apply firstn_all2; lia).
  assert (Hpos : (1 <= length hourly)%nat)
    by (destruct hourly; [discriminate Hlo | simpl; lia]).
  pose proof (normalize_map hourly lo hi Hlo Hhi Hne) as Hn.
  set (wind_norm := map (fun w => (w - lo) / (hi - lo)) hourly) in *.
  set (spikes := encode (threshold ui) wind_norm).
  set (outputs := simulate lif_step p100 spikes).
  assert (Hnorm : length wind_norm = length hourly)
    by (unfold wind_norm; apply length_map).
  assert (Hspikes : length spikes = length hourly)
    by (unfold spikes; now rewrite encode_length).
  assert (Houtputs : length outputs = length hourly)
    by (unfold outputs; now rewrite simulate_length).
  destruct (forecast_total hourly (pred_window ui) Hw) as [preds Hf].
  pose proof (forecast_has_24_entries hourly _ preds Hw ltac:(lia) Hf) as Hp.
  destruct (py_max_nonempty outputs) as [max_out Hmo];
    [destruct outputs; [simpl in Houtputs; lia | discriminate]|].
  destruct (next_hour_in_range spikes preds ltac:(lia) Hp)
    as [val [Hnext Hnth]].
  rewrite Hspikes in Hnth.
  exists wind_norm, preds, max_out, val.
  split; [exact Hn|].
  split; [exact Hf|].
  split; [exact Hmo|].
  split; [exact Hnth|].
  rewrite (main_as_constant_source _ _ _ _ _ Hsrc).
  unfold main, run_with.
  rewrite <- Hall in Hn, Hf.
  rewrite (pipeline_past_chart hourly lif_step ui wind_norm preds Hn Hf).
  rewrite Hall. fold spikes. fold outputs.
  rewrite (summary_shown _ _ _ _ _ _ _ Hmo Hhi Hnext).
  rewrite data_frame_length_mismatch
    by (rewrite length_map, length_seq; lia).
  reflexivity.
Qed.

Lemma short_answer_fails_at_export_witness :
  exists wind_norm preds max_out val,
    normalize five_samples = Ok wind_norm /\
    forecast five_samples (pred_window ui0) = Ok preds /\
    py_max (simulate Norse.euler_step p100 (encode (threshold ui0) wind_norm))
    = Ok max_out /\
    nth_error preds (length five_samples - 1) = Some val /\
    main (source_of five_samples) Norse.euler_step mail_ok ui0 =
    ([StText "Simulation Neuromorphique des Vents"; StWidget "ville";
      StWidget "threshold"; StWidget "pred_window";
      StPyplot (mkChart five_samples wind_norm
                  (encode (threshold ui0) wind_norm)
                  (simulate Norse.euler_step p100
                     (encode (threshold ui0) wind_norm))
                  preds (threshold ui0));
      StText "Analyse";
      StWrite (SpikesDetected
                 (fold_left Z.add (encode (threshold ui0) wind_norm) 0%Z));
      StWrite (MaxOutput max_out);
      StWrite (MaxWind 50);
      match val with
      | Some x => StWrite (PredictedNextHour x)
      | None => StWarning "Prevision indisponible ou non valide."
      end],
     Uncaught (ValueError "All arrays must be of the same length")).
Proof.
  apply (short_answer_fails_at_export
           (source_of five_samples) Norse.euler_step mail_ok ui0
           five_samples 10 50).
  - reflexivity.
  - simpl. lia.
  - reflexivity.
  - reflexivity.
  - intros H. discriminate H.
  - simpl. lia.
Defined.

(** X6.  On an answer of at least 24 samples whose first 24 are not all
    equal, with a window in [1,5], the run reaches its end whatever the
    alert settings and the mail answers are.  It offers a table of 24
    rows whose columns are, in order, the hours 0 to 23, the raw series,
    the normalised series, the spikes, the neuron outputs and the
    forecast. *)
Theorem well_formed_run_exports_the_series
    (source : Q -> Q -> result (list Q)) (lif_step : Norse.step)
    (mail : notification) (ui : widgets) (hourly : list Q) (lo hi : Q) :
  fetched source ui = Ok hourly ->
  (24 <= length hourly)%nat ->
  py_min (firstn 24 hourly) = Ok lo ->
  py_max (firstn 24 hourly) = Ok hi ->
  ~ hi == lo ->
  (1 <= pred_window ui <= 5)%nat ->
  exists wind_norm preds rows,
    normalize (firstn 24 hourly) = Ok wind_norm /\
    forecast (firstn 24 hourly) (pred_window ui) = Ok preds /\
    In (StDownloadButton rows) (shown (main source lif_step mail ui)) /\
    length rows = 24%nat /\
    map heure rows = map Z.of_nat (seq 0 24) /\
    map vent rows = firstn 24 hourly /\
    map vent_normalise rows = wind_norm /\
    map spike_col rows = encode (threshold ui) wind_norm /\
    map sortie_neurone rows =
    simulate lif_step p100 (encode (threshold ui) wind_norm) /\
    map vent_predit rows = preds /\
    ended (main source lif_step mail ui) = Returned tt.
Proof.
  intros Hsrc Hlen Hlo Hhi Hne Hw.
  set (wind := firstn 24 hourly) in *.
  assert (Hwind : length wind = 24%nat)
    by (unfold wind; rewrite length_firstn; lia).
  pose proof (normalize_map wind lo hi Hlo Hhi Hne) as Hn.
  set (wind_norm := map (fun w => (w - lo) / (hi - lo)) wind) in *.
  set (spikes := encode (threshold ui) wind_norm).
  set (outputs := simulate lif_step p100 spikes).
  assert (Hnorm : length wind_norm = 24%nat)
    by (unfold wind_norm; now rewrite length_map).
  assert (Hspikes : length spikes = 24%nat)
    by (unfold spikes; now rewrite encode_length).
  assert (Houtputs : length outputs = 24%nat)
    by (unfold outputs; now rewrite simulate_length).
  pose proof (forecast_is_forecast_24 wind _ Hwind Hw) as Hf.
  pose proof (forecast_24_length wind _ Hw) as Hpreds.
  set (preds := forecast_24 wind (pred_window ui)) in *.
  destruct (py_max_nonempty outputs) as [max_out Hmo];
    [destruct outputs; discriminate|].
  destruct (next_hour_in_range spikes preds ltac:(lia) Hpreds)
    as [val [Hnext _]].
  destruct (data_frame_same_length (map Z.of_nat (seq 0 24))
              wind wind_norm spikes outputs preds)
    as [rows [Hdf Hrows]]; rewrite ?length_map, ?length_seq; try assumption.
  rewrite length_map, length_seq in Hrows.
  destruct (data_frame_columns _ _ _ _ _ _ _ Hdf)
    as (C1 & C2 & C3 & C4 & C5 & C6).
  assert (Hpipe : pipeline (source_of hourly) lif_step ui =
                  ([StText "Simulation Neuromorphique des Vents";
                    StWidget "ville"; StWidget "threshold";
                    StWidget "pred_window";
                    StPyplot (mkChart wind wind_norm spikes outputs preds
                                (threshold ui));
                    StText "Analyse";
                    StWrite (SpikesDetected (fold_left Z.add spikes 0%Z));
                    StWrite (MaxOutput max_out);
                    StWrite (MaxWind hi);
                    match val with
                    | Some x => StWrite (PredictedNextHour x)
                    | None => StWarning "Prevision indisponible ou non valide."
                    end;
                    StDownloadButton rows], Returned wind)).
  { rewrite (pipeline_past_chart hourly lif_step ui wind_norm preds Hn Hf).
    fold wind. fold spikes. fold outputs.
    rewrite (summary_shown _ _ _ _ _ _ _ Hmo Hhi Hnext), Hdf.
    reflexivity. }
  exists wind_norm, preds, rows.
  rewrite (main_as_constant_source _ _ _ _ _ Hsrc).
  repeat (split; [assumption|]).
  split.
  { unfold main, run_with. apply in_shown_bind_l. rewrite Hpipe.
    simpl. do 10 right. left. reflexivity. }
  repeat (split; [assumption|]).
  unfold main, run_with. rewrite ended_bind, Hpipe. cbn [ended snd].
  apply alert_block_returns. destruct wind; discriminate.
Qed.

Lemma well_formed_run_exports_the_series_witness :
  exists wind_norm preds rows,
    normalize (firstn 24 ramp) = Ok wind_norm /\
    forecast (firstn 24 ramp) (pred_window ui0) = Ok preds /\
    In (StDownloadButton rows)
       (shown (main (source_of ramp) Norse.euler_step mail_ok ui0)) /\
    length rows = 24%nat /\
    map heure rows = map Z.of_nat (seq 0 24) /\
    map vent rows = firstn 24 ramp /\
    map vent_normalise rows = wind_norm /\
    map spike_col rows = encode (threshold ui0) wind_norm /\
    map sortie_neurone rows =
    simulate Norse.euler_step p100 (encode (threshold ui0) wind_norm) /\
    map vent_predit rows = preds /\
    ended (main (source_of ramp) Norse.euler_step mail_ok ui0) = Returned tt.
Proof.
  apply (well_formed_run_exports_the_series
           (source_of ramp) Norse.euler_step mail_ok ui0 ramp 10 240).
  - reflexivity.
  - simpl. lia.
  - reflexivity.
  - reflexivity.
  - intros H. discriminate H.
  - simpl. lia.
Defined.

(** ** Normalisation and spikes together *)

Lemma range_positive (wind : list Q) (lo hi : Q) :
  py_min wind = Ok lo -> py_max wind = Ok hi -> ~ hi == lo -> 0 < hi - lo.
Proof.
  intros Hlo Hhi Hne.
  destruct (py_min_spec wind lo Hlo) as [Hin _].
  destruct (py_max_spec wind hi Hhi) as [_ Hub].
  pose proof (Hub lo Hin) as Hle.
  destruct (Qlt_le_dec lo hi) as [Hlt | Hge]; [lra|].
  exfalso. apply Hne. now apply Qle_antisym.
Qed.

Lemma above_level_iff (w lo hi T : Q) :
  0 < hi - lo ->
  (T < (w - lo) / (hi - lo) <-> lo + T * (hi - lo) < w).
Proof.
  intros Hpos. split; intros H.
  - apply (Qmult_lt_compat_r _ _ (hi - lo)) in H; [|exact Hpos].
    assert (E : (w - lo) / (hi - lo) * (hi - lo) == w - lo)
      by (field; intros H0; rewrite H0 in Hpos; discriminate Hpos).
    rewrite E in H. lra.
  - apply Qlt_shift_div_l; [exact Hpos | lra].
Qed.

Lemma normalized_nth (wind : list Q) (lo hi : Q) (k : nat) :
  (k < length wind)%nat ->
  nth k (map (fun w => (w - lo) / (hi - lo)) wind) 0 =
  (nth k wind 0 - lo) / (hi - lo).
Proof.
  intros Hk.
  set (f := fun w => (w - lo) / (hi - lo)).
  rewrite (nth_indep (map f wind) 0 (f 0)) by (rewrite length_map; lia).
  apply map_nth.
Qed.

(** X7.  On a series that is not constant, of any length, normalisation
    keeps the order of the samples, so the spikes follow it: if a sample
    gives a spike, every sample at least as large gives one too. *)
Theorem spikes_follow_the_order_of_samples
    (wind : list Q) (lo hi T : Q) :
  py_min wind = Ok lo ->
  py_max wind = Ok hi ->
  ~ hi == lo ->
  exists wind_norm,
    normalize wind = Ok wind_norm /\
    (forall i j, (i < length wind)%nat -> (j < length wind)%nat ->
       nth i wind 0 <= nth j wind 0 ->
       nth i wind_norm 0 <= nth j wind_norm 0) /\
    (forall i j, (i < length wind)%nat -> (j < length wind)%nat ->
       nth i wind 0 <= nth j wind 0 ->
       nth i (encode T wind_norm) 0%Z = 1%Z ->
       nth j (encode T wind_norm) 0%Z = 1%Z).
Proof.
  intros Hlo Hhi Hne.
  pose proof (range_positive wind lo hi Hlo Hhi Hne) as Hpos.
  exists (map (fun w => (w - lo) / (hi - lo)) wind).
  split; [now apply normalize_map|].
  assert (Hmono : forall i j, (i < length wind)%nat -> (j < length wind)%nat ->
            nth i wind 0 <= nth j wind 0 ->
            nth i (map (fun w => (w - lo) / (hi - lo)) wind) 0
            <= nth j (map (fun w => (w - lo) / (hi - lo)) wind) 0).
  { intros i j Hi Hj Hle. rewrite !normalized_nth by assumption.
    apply Qle_shift_div_l; [exact Hpos|].
    assert (E : (nth i wind 0 - lo) / (hi - lo) * (hi - lo)
                == nth i wind 0 - lo)
      by (field; intros H0; rewrite H0 in Hpos; discriminate Hpos).
    rewrite E. lra. }
  split; [exact Hmono|].
  intros i j Hi Hj Hle.
  rewrite !encode_nth by (rewrite length_map; assumption).
  pose proof (Hmono i j Hi Hj Hle) as Hn.
  destruct (Qlt_bool T (nth i (map (fun w => (w - lo) / (hi - lo)) wind) 0))
    eqn:Ei; [|discriminate].
  intros _. apply Qlt_bool_iff in Ei.
  assert (Ej : Qlt_bool T
                 (nth j (map (fun w => (w - lo) / (hi - lo)) wind) 0) = true)
    by (apply Qlt_bool_iff; lra).
  now rewrite Ej.
Qed.

Lemma spikes_follow_the_order_of_samples_witness :
  exists wind_norm,
    normalize ramp = Ok wind_norm /\
    (forall i j, (i < length ramp)%nat -> (j < length ramp)%nat ->
       nth i ramp 0 <= nth j ramp 0 ->
       nth i wind_norm 0 <= nth j wind_norm 0) /\
    (forall i j, (i < length ramp)%nat -> (j < length ramp)%nat ->
       nth i ramp 0 <= nth j ramp 0 ->
       nth i (encode 0.3 wind_norm) 0%Z = 1%Z ->
       nth j (encode 0.3 wind_norm) 0%Z = 1%Z).
Proof.
  apply (spikes_follow_the_order_of_samples ramp 10 240 0.3).
  - reflexivity.
  - reflexivity.
  - intros H. discriminate H.
Defined.

(** X8.  On a series that is not constant: below the threshold 1.0 every
    sample equal to the maximum gives a spike, so there is at least one;
    at 1.0 or above there is none; and for a threshold that is not
    negative no sample equal to the minimum gives one. *)
Theorem spikes_at_the_extremes (wind : list Q) (lo hi T : Q) :
  py_min wind = Ok lo ->
  py_max wind = Ok hi ->
  ~ hi == lo ->
  exists wind_norm,
    normalize wind = Ok wind_norm /\
    (T < 1 ->
     In 1%Z (encode T wind_norm) /\
     forall k, (k < length wind)%nat -> nth k wind 0 == hi ->
               nth k (encode T wind_norm) 0%Z = 1%Z) /\
    (1 <= T -> Forall (fun s => s = 0%Z) (encode T wind_norm)) /\
    (0 <= T ->
     forall k, (k < length wind)%nat -> nth k wind 0 == lo ->
               nth k (encode T wind_norm) 0%Z = 0%Z).
Proof.
  intros Hlo Hhi Hne.
  pose proof (range_positive wind lo hi Hlo Hhi Hne) as Hpos.
  destruct (py_min_spec wind lo Hlo) as [_ Hlower].
  destruct (py_max_spec wind hi Hhi) as [Hhi_in Hupper].
  set (f := fun w => (w - lo) / (hi - lo)).
  exists (map f wind).
  split; [now apply normalize_map|].
  assert (Hone : forall w, T < 1 -> w == hi -> Qlt_bool T (f w) = true).
  { intros w HT E. apply Qlt_bool_iff. unfold f.
    apply above_level_iff; [exact Hpos|]. rewrite E. nra. }
  split.
  { intros HT. split.
    - unfold encode. rewrite map_map. apply in_map_iff.
      exists hi. split; [|exact Hhi_in].
      now rewrite (Hone hi HT (Qeq_refl hi)).
    - intros k Hk E.
      rewrite encode_nth by (rewrite length_map; lia).
      unfold f. rewrite normalized_nth by exact Hk.
      change ((nth k wind 0 - lo) / (hi - lo)) with (f (nth k wind 0)).
      now rewrite (Hone _ HT E). }
  split.
  { intros HT. unfold encode. rewrite map_map. apply Forall_map.
    apply Forall_forall. intros w Hw.
    assert (E : Qlt_bool T (f w) = false).
    { apply Qlt_bool_false_iff.
      destruct (normalized_in_unit_interval w lo hi (Hlower w Hw)
                  (Hupper w Hw) Hne) as [_ Hle].
      unfold f. lra. }
    now rewrite E. }
  intros HT k Hk E.
  rewrite encode_nth by (rewrite length_map; lia).
  unfold f. rewrite normalized_nth by exact Hk.
  assert (E0 : Qlt_bool T ((nth k wind 0 - lo) / (hi - lo)) = false).
  { apply Qlt_bool_false_iff.
    assert (Hz : (nth k wind 0 - lo) / (hi - lo) == 0).
    { rewrite E. field. intros H0. rewrite H0 in Hpos. discriminate Hpos. }
    rewrite Hz. exact HT. }
  now rewrite E0.
Qed.

Lemma spikes_at_the_extremes_witness :
  exists wind_norm,
    normalize ramp = Ok wind_norm /\
    (1 < 1 ->
     In 1%Z (encode 1 wind_norm) /\
     forall k, (k < length ramp)%nat -> nth k ramp 0 == 240 ->
               nth k (encode 1 wind_norm) 0%Z = 1%Z) /\
    (1 <= 1 -> Forall (fun s => s = 0%Z) (encode 1 wind_norm)) /\
    (0 <= 1 ->
     forall k, (k < length ramp)%nat -> nth k ramp 0 == 10 ->
               nth k (encode 1 wind_norm) 0%Z = 0%Z).
Proof.
  apply (spikes_at_the_extremes ramp 10 240 1).
  - reflexivity.
  - reflexivity.
  - intros H. discriminate H.
Defined.

(** ** Counting spikes *)

Lemma sum_of_spikes (T : Q) (l : list Q) :
  forall acc,
    fold_left Z.add (encode T l) acc =
    (acc + Z.of_nat (length (filter (Qlt_bool T) l)))%Z.
Proof.
  induction l as [|w rest IH]; intros acc; simpl.
  - lia.
  - rewrite IH. destruct (Qlt_bool T w); simpl length; lia.
Qed.

Lemma filter_threshold_antitone (T1 T2 : Q) (l : list Q) :
  T1 <= T2 ->
  (length (filter (Qlt_bool T2) l) <= length (filter (Qlt_bool T1) l))%nat.
Proof.
  intros HT. induction l as [|w rest IH]; simpl; [lia|].
  destruct (Qlt_bool T2 w) eqn:E2.
  - assert (E1 : Qlt_bool T1 w = true).
    { apply Qlt_bool_iff. apply Qlt_bool_iff in E2. lra. }
    rewrite E1. simpl. lia.
  - destruct (Qlt_bool T1 w); simpl; lia.
Qed.

(** X9.  The number the summary shows as detected spikes, [sum(spikes)],
    is the number of normalised values strictly above the threshold; it
    lies between 0 and the number of samples. *)
Theorem spike_count_is_number_above (T : Q) (wind_norm : list Q) :
  fold_left Z.add (encode T wind_norm) 0%Z =
  Z.of_nat (length (filter (Qlt_bool T) wind_norm)) /\
  (0 <= fold_left Z.add (encode T wind_norm) 0
   <= Z.of_nat (length wind_norm))%Z.
Proof.
  rewrite sum_of_spikes. split; [lia|].
  pose proof (filter_length_le (Qlt_bool T) wind_norm). lia.
Qed.

(** X10.  Raising the threshold never adds a spike: a sample that gives
    a spike at the higher threshold gives one at the lower, and the
    count of spikes does not grow. *)
Theorem raising_threshold_removes_spikes
    (T1 T2 : Q) (wind_norm : list Q) :
  T1 <= T2 ->
  (forall k, (k < length wind_norm)%nat ->
     nth k (encode T2 wind_norm) 0%Z = 1%Z ->
     nth k (encode T1 wind_norm) 0%Z = 1%Z) /\
  (fold_left Z.add (encode T2 wind_norm) 0
   <= fold_left Z.add (encode T1 wind_norm) 0)%Z.
Proof.
  intros HT. split.
  - intros k Hk. rewrite !encode_nth by exact Hk.
    destruct (Qlt_bool T2 (nth k wind_norm 0)) eqn:E2; [|discriminate].
    intros _. apply Qlt_bool_iff in E2.
    assert (E1 : Qlt_bool T1 (nth k wind_norm 0) = true)
      by (apply Qlt_bool_iff; lra).
    now rewrite E1.
  - rewrite !sum_of_spikes.
    pose proof (filter_threshold_antitone T1 T2 wind_norm HT). lia.
Qed.

Lemma raising_threshold_removes_spikes_witness :
  (forall k, (k < length three_levels)%nat ->
     nth k (encode 0.5 three_levels) 0%Z = 1%Z ->
     nth k (encode 0.3 three_levels) 0%Z = 1%Z) /\
  (fold_left Z.add (encode 0.5%Q three_levels) 0
   <= fold_left Z.add (encode 0.3%Q three_levels) 0)%Z.
Proof.
  apply (raising_threshold_removes_spikes 0.3 0.5 three_levels).
  unfold Qle. simpl. lia.
Defined.

(** ** The forecast on any series *)

Lemma forecast_shape_any (wind : list Q) (w : nat) :
  (1 <= w)%nat ->
  forecast wind w =
  Ok (map Some (map (fun k => mean (slice wind k (k + w)))
                    (seq 0 (length wind + 1 - w)))
      ++ repeat None (24 - (length wind + 1 - w))).
Proof.
  intros Hw. unfold forecast, forecast_range.
  rewrite (comprehension_total _ (fun k => mean (slice wind k (k + w)))).
  - unfold rbind. now rewrite length_map, length_seq.
  - intros k Hk. apply in_seq in Hk.
    apply window_mean_is_mean; lia.
Qed.

(** X11.  For a series of at most 24 samples and any window of 1 or
    more, lines 53 and 54 give 24 entries: one mean per window that fits
    in the series, [len(wind) - w + 1] of them, then [None].  A window
    longer than the series leaves 24 [None]. *)
Theorem forecast_on_any_series (wind : list Q) (w : nat) :
  (1 <= w)%nat ->
  (length wind <= 24)%nat ->
  exists preds,
    forecast wind w = Ok preds /\
    length preds = 24%nat /\
    length (filter has_value preds) = (length wind + 1 - w)%nat /\
    (forall k, (k + w <= length wind)%nat ->
       nth_error preds k = Some (Some (mean (slice wind k (k + w))))) /\
    (forall k, (length wind < k + w)%nat -> (k < 24)%nat ->
       nth_error preds k = Some None) /\
    ((length wind < w)%nat -> preds = repeat None 24).
Proof.
  intros Hw Hlen.
  set (n := (length wind + 1 - w)%nat).
  set (f := fun k => mean (slice wind k (k + w))).
  exists (map Some (map f (seq 0 n)) ++ repeat None (24 - n)).
  split; [now apply forecast_shape_any|].
  split.
  { rewrite length_app, !length_map, length_seq, repeat_length.
    unfold n. lia. }
  split.
  { rewrite filter_app, filter_has_value_some, filter_has_value_none.
    now rewrite app_nil_r, !length_map, length_seq. }
  split.
  { intros k Hk.
    rewrite nth_error_app1 by (rewrite !length_map, length_seq; unfold n; lia).
    apply map_nth_error. apply (map_nth_error f).
    apply seq_nth_error. unfold n. lia. }
  split.
  { intros k Hk Hk24.
    rewrite nth_error_app2 by (rewrite !length_map, length_seq; unfold n; lia).
    apply nth_error_repeat. rewrite !length_map, length_seq. unfold n. lia. }
  intros Hlong. replace n with 0%nat by (unfold n; lia). reflexivity.
Qed.

Lemma forecast_on_any_series_witness :
  exists preds,
    forecast five_samples 3 = Ok preds /\
    length preds = 24%nat /\
    length (filter has_value preds) = (length five_samples + 1 - 3)%nat /\
    (forall k, (k + 3 <= length five_samples)%nat ->
       nth_error preds k = Some (Some (mean (slice five_samples k (k + 3))))) /\
    (forall k, (length five_samples < k + 3)%nat -> (k < 24)%nat ->
       nth_error preds k = Some None) /\
    ((length five_samples < 3)%nat -> preds = repeat None 24).
Proof.
  apply (forecast_on_any_series five_samples 3).
  - lia.
  - simpl. lia.
Defined.


(** ** When the alert block does something *)

(** X13.  Nothing is attempted unless the box is ticked, the largest
    sample is above 30 and the button is pressed.  With the box not
    ticked or a maximum of 30 or less the block shows its checkbox only;
    with both but the button not pressed it shows the address field and
    the button, and nothing else. *)
Theorem alert_block_is_quiet
    (globals : list string) (mail : notification) (ui : widgets)
    (wind : list Q) (m : Q) :
  py_max wind = Ok m ->
  (alerte_active ui = false \/ m <= 30 ->
   alert_block globals mail ui wind =
   ([StWidget "alerte_active"], Returned tt)) /\
  (alerte_active ui = true -> 30 < m -> envoyer ui = false ->
   alert_block globals mail ui wind =
   ([StWidget "alerte_active"; StWidget "receiver"; StWidget "envoyer"],
    Returned tt)).
Proof.
  intros Hm. unfold alert_block, alert_condition. cbn [widget bind]. split.
  - intros [Hoff | Hlow].
    + rewrite Hoff. reflexivity.
    + destruct (alerte_active ui); [|reflexivity].
      rewrite Hm. cbn [rbind].
      assert (E : Qlt_bool 30 m = false) by now apply Qlt_bool_false_iff.
      rewrite E. reflexivity.
  - intros Hon Hhigh Hnot. rewrite Hon, Hm. cbn [rbind].
    apply Qlt_bool_iff in Hhigh. rewrite Hhigh.
    unfold alert_try. cbn [lift ret widget bind try_except]. rewrite Hnot.
    reflexivity.
Qed.

Lemma alert_block_is_quiet_witness :
  (alerte_active ui_not_pressed = false \/ 240 <= 30 ->
   alert_block module_globals mail_ok ui_not_pressed ramp =
   ([StWidget "alerte_active"], Returned tt)) /\
  alert_block module_globals mail_ok ui_not_pressed ramp =
  ([StWidget "alerte_active"; StWidget "receiver"; StWidget "envoyer"],
   Returned tt).
Proof.
  destruct (alert_block_is_quiet module_globals mail_ok ui_not_pressed
              ramp 240 eq_refl) as [Hquiet Hidle].
  split; [exact Hquiet|].
  apply Hidle; reflexivity.
Defined.


